(** * sails-rest: the request pipeline of the REST resource

    A shallow embedding of [Resource.prototype.request], of its completion
    handler, of the result formatters and of [RestError], followed by the
    properties of the pipeline.

    - JavaScript data is embedded as trees ([value]): objects are association
      lists in insertion order, numbers are integers (printed as the doubles
      nearest to them are, [number_to_string]), functions are names.
      Arguments are taken to be trees, that is, the caller passes no object
      twice.  [_.cloneDeep] is then the identity.
    - The objects the code changes in place are threaded explicitly:
      [request] returns the [options] object of the caller as the call
      leaves it, the two objects that the override of the configuration
      makes shared between [config] and [options] ([where] and [query]) are
      updated on both sides, and the body handed to the client records which
      object it is ([alias]).
    - A call of the HTTP client is recorded with the closure of its
      completion handler; the handler is a function of its own
      ([cb]), to be run on whatever the client answers.  Callbacks are
      data: a function of the caller, [_.noop], or the closure of the
      fan-out.
    - An exception is an outcome of its own ([Throw]).  The recursion of
      [request] through [self.find] and the fan-out closure is not
      structural (a matched record with a falsy id is fanned out again), so
      it runs on fuel.
    - The HTTP client, the cache engine, the collection registry,
      [url.format], the inflector and the functions stored in the
      configuration are collaborators: they are parameters, total and
      without effect on the arguments they are given.
    - Of lodash, [_.each], [_.map] and [_.size] are modelled on arrays,
      strings and plain objects read by their own properties; an object with
      a numeric [length], which lodash reads by index, is outside the model,
      and so is an array as the destination of [_.extend]. *)

From Stdlib Require Import ZArith Ascii String.
From stdpp Require Import base strings list gmap pretty.

Set Warnings "-register-all".

Local Open Scope string_scope.
Local Open Scope Z_scope.

(** ** JavaScript values *)

(** Functions held in the configuration: [Resource.getPathname] itself, or a
    function supplied by the user of the adapter. *)
Inductive fn :=
| FnGetPathname
| FnUser (name : string).

Inductive value :=
| VUndef
| VNull
| VBool (b : bool)
| VNum (n : Z)
| VStr (s : string)
| VArr (xs : list value)
| VObj (fs : list (string * value))
| VFun (f : fn).

Definition fields := list (string * value).

(** ToBoolean *)
Definition to_boolean (v : value) : bool :=
  match v with
  | VUndef | VNull => false
  | VBool b => b
  | VNum n => negb (n =? 0)
  | VStr s => negb (String.eqb s "")
  | VArr _ | VObj _ | VFun _ => true
  end.

(** [v === undefined || v === null]: property access on such a value throws. *)
Definition nullish (v : value) : bool :=
  match v with
  | VUndef | VNull => true
  | _ => false
  end.

(** *** Number::toString on integers

    A Number is a double.  [VNum n] stands for the double nearest to [n]
    (ties to even), which is [n] itself up to 2^53.  Its string is made of
    the fewest decimal digits that read back as the same double, followed
    by zeros up to 21 digits and written with an exponent beyond. *)

(** The double nearest to an integer above 2^53. *)
Definition nearest_double (x : Z) : Z :=
  let q := Z.log2 x - 52 in
  let m := Z.shiftr x q in
  let r := x - Z.shiftl m q in
  let half := 2 ^ (q - 1) in
  let m' := if r <? half then m
            else if half <? r then m + 1
            else if Z.even m then m else m + 1 in
  Z.shiftl m' q.

(** The integer of fewest significant digits among those that round to the
    double [d], the nearest to [d] when there are two; [D] is the number of
    digits of [d], [lo] and [hi] bound the reals that round to [d], and the
    bounds themselves do when [closed]. *)
Fixpoint shortest_decimal (fuel : nat) (k d D lo hi : Z) (closed : bool) : Z :=
  match fuel with
  | O => d
  | S fuel' =>
      let p := D - k in
      if p <=? 0 then d
      else
        let w := 10 ^ p in
        let a := d / w * w in
        let b := a + w in
        let inside c :=
          if closed then (lo <=? c) && (c <=? hi) else (lo <? c) && (c <? hi) in
        match inside a, inside b with
        | true, true =>
            if d - a <? b - d then a
            else if b - d <? d - a then b
            else if Z.even (d / w) then a else b
        | true, false => a
        | false, true => b
        | false, false => shortest_decimal fuel' (k + 1) d D lo hi closed
        end
  end.

Fixpoint strip_zeros (s : string) : string :=
  match s with
  | EmptyString => EmptyString
  | String c rest =>
      let r := strip_zeros rest in
      if String.eqb r "" && Ascii.eqb c "0" then "" else String c r
  end.

Definition positive_to_string (x : Z) : string :=
  if x <=? 9007199254740992 then pretty x
  else if 2 ^ 1024 - 2 ^ 970 <=? x then "Infinity"
  else
    let d := nearest_double x in
    let q := Z.log2 d - 52 in
    let m := Z.shiftr d q in
    let lo := d - (if m =? 4503599627370496 then 2 ^ (q - 2) else 2 ^ (q - 1)) in
    let hi := d + 2 ^ (q - 1) in
    let D := Z.of_nat (String.length (pretty d)) in
    let digits := pretty (shortest_decimal 17 1 d D lo hi (Z.even m)) in
    if (String.length digits <=? 21)%nat then digits
    else
      match strip_zeros digits with
      | EmptyString => digits
      | String c rest =>
          String c (if String.eqb rest "" then "" else "." ++ rest)
          ++ "e+" ++ pretty (Z.of_nat (String.length digits) - 1)
      end.

Definition number_to_string (n : Z) : string :=
  if n <? 0 then "-" ++ positive_to_string (- n) else positive_to_string n.

(** ToString.  An array prints its elements separated by commas, with
    [null] and [undefined] elements printed as the empty string. *)
Fixpoint to_string (v : value) : string :=
  match v with
  | VUndef => "undefined"
  | VNull => "null"
  | VBool true => "true"
  | VBool false => "false"
  | VNum n => number_to_string n
  | VStr s => s
  | VArr xs =>
      (fix join (l : list value) : string :=
         match l with
         | [] => ""
         | x :: rest =>
             let e := if nullish x then "" else to_string x in
             match rest with
             | [] => e
             | _ :: _ => e ++ "," ++ join rest
             end
         end) xs
  | VObj _ => "[object Object]"
  | VFun _ => "function"
  end.

(** *** Own properties *)

Fixpoint get_field (k : string) (fs : fields) : value :=
  match fs with
  | [] => VUndef
  | (k', v) :: rest => if String.eqb k k' then v else get_field k rest
  end.

Fixpoint has_field (k : string) (fs : fields) : bool :=
  match fs with
  | [] => false
  | (k', _) :: rest => String.eqb k k' || has_field k rest
  end.

(** [o[k] = v]: an existing key keeps its place, a new key goes last. *)
Fixpoint set_field (k : string) (v : value) (fs : fields) : fields :=
  match fs with
  | [] => [(k, v)]
  | (k', v') :: rest =>
      if String.eqb k k' then (k, v) :: rest else (k', v') :: set_field k v rest
  end.

(** [delete o[k]] *)
Fixpoint delete_field (k : string) (fs : fields) : fields :=
  match fs with
  | [] => []
  | (k', v') :: rest =>
      if String.eqb k k' then delete_field k rest else (k', v') :: delete_field k rest
  end.

(** [v[k]] for a receiver that is neither [null] nor [undefined]; a missing
    property, or any property of a primitive other than [length], reads as
    [undefined]. *)
Definition get (v : value) (k : string) : value :=
  match v with
  | VObj fs => get_field k fs
  | VArr xs => if String.eqb k "length" then VNum (Z.of_nat (List.length xs)) else VUndef
  | VStr s => if String.eqb k "length" then VNum (Z.of_nat (String.length s)) else VUndef
  | _ => VUndef
  end.

(** [_.has(v, k)] *)
Definition has (v : value) (k : string) : bool :=
  match v with
  | VObj fs => has_field k fs
  | _ => false
  end.

(** [v[k] = x] on an object; assignment to a property of a primitive is
    silently dropped. *)
Definition set (v : value) (k : string) (x : value) : value :=
  match v with
  | VObj fs => VObj (set_field k x fs)
  | _ => v
  end.

(** [delete v[k]] *)
Definition del (v : value) (k : string) : value :=
  match v with
  | VObj fs => VObj (delete_field k fs)
  | _ => v
  end.

(** The own enumerable properties of a value as [_.extend] reads them from a
    source: the fields of an object, the indexed elements of an array. *)
Definition own_entries (v : value) : fields :=
  match v with
  | VObj fs => fs
  | VArr xs => imap (fun i x => (pretty (Z.of_nat i), x)) xs
  | _ => []
  end.

(** [_.extend(dest, src)]: the properties of [src] are assigned onto [dest]
    in order; [dest] itself is returned. *)
Definition extend (dest src : value) : value :=
  match dest with
  | VObj fs => VObj (fold_left (fun acc kv => set_field kv.1 kv.2 acc) (own_entries src) fs)
  | _ => dest
  end.

(** [_.size] *)
Definition size_of (v : value) : nat :=
  match v with
  | VObj fs => List.length fs
  | VArr xs => List.length xs
  | VStr s => String.length s
  | _ => 0%nat
  end.

Definition is_function (v : value) : bool :=
  match v with
  | VFun _ => true
  | _ => false
  end.

Definition is_plain_object (v : value) : bool :=
  match v with
  | VObj _ => true
  | _ => false
  end.

Definition is_array (v : value) : bool :=
  match v with
  | VArr _ => true
  | _ => false
  end.

(** [a || b] *)
Definition js_or (a b : value) : value := if to_boolean a then a else b.

(** [v === 'get'] and the like *)
Definition is_str (v : value) (s : string) : bool :=
  match v with
  | VStr s' => String.eqb s' s
  | _ => false
  end.

Definition is_undef (v : value) : bool :=
  match v with
  | VUndef => true
  | _ => false
  end.

Definition is_null (v : value) : bool :=
  match v with
  | VNull => true
  | _ => false
  end.

(** [uri.replace(pattern, replacement)] with a string pattern: the first
    occurrence is replaced. *)
Fixpoint replace_first (pattern replacement s : string) : string :=
  if String.prefix pattern s
  then replacement ++ String.substring (String.length pattern) (String.length s) s
  else match s with
       | EmptyString => EmptyString
       | String c rest => String c (replace_first pattern replacement rest)
       end.

(** The test [/^(4|5)\d+$/] of the completion handler. *)
Definition is_digit (c : ascii) : bool :=
  (48 <=? nat_of_ascii c)%nat && (nat_of_ascii c <=? 57)%nat.

Definition error_code_regex (s : string) : bool :=
  match s with
  | String c rest =>
      (Ascii.eqb c "4" || Ascii.eqb c "5")
      && negb (String.eqb rest "")
      && forallb is_digit (list_ascii_of_string rest)
  | EmptyString => false
  end.

(** ** Collaborators *)

(** Library functions the pipeline calls: the inflector, [url.format], and
    the functions a user stores in the configuration (hooks, a custom
    [getPathname]). *)
Class Externals := {
  pluralize : string -> string;
  url_format : value -> string;
  call_user : string -> list value -> value
}.

(** A collection of the registry: [_transformer.unserialize] and [_cast.run]
    (the latter updates the record in place; [cast_run] gives the updated
    record). *)
Record collection := {
  unserialize : value -> value;
  cast_run : value -> value
}.

(** The restify client: the names of its verb operations and [url.href]. *)
Record client := {
  client_ops : list string;
  client_href : string
}.

(** The resource ([this]). Its cache engine, when one is configured, lives in
    the state. *)
Record Resource := {
  r_client : client;
  r_config : value;
  r_collections : string -> option collection
}.

(** [_.isFunction(client[restMethod])] *)
Definition client_has (c : client) (restMethod : value) : bool :=
  bool_decide (to_string restMethod ∈ client_ops c).

Inductive exn :=
| TypeError (what : string).

(** ** RestError (lib/rest-error.js) *)

Inductive error :=
| JsError (message : string)
| RestErr (name : string) (message : value) (meta : value).

Definition RestError (message meta : value) : error :=
  RestErr "RestError"
          (js_or message (VStr "REST Error Message"))
          (js_or meta (VObj [])).

Definition is_rest_error (e : error) : bool :=
  match e with
  | RestErr _ _ _ => true
  | JsError _ => false
  end.

(** ** The request pipeline before any call is issued *)

Section Pipeline.
Context `{Externals}.

(** [Resource.getPathname] *)
Definition getPathname (config method values options : value) : value :=
  VStr (to_string (get config "pathname") ++ "/" ++ to_string (get config "resource")
        ++ (if to_boolean (get config "action")
            then "/" ++ to_string (get config "action")
            else "")).

(** Calling a function value. *)
Definition apply_fn (f : fn) (args : list value) : value :=
  match f with
  | FnGetPathname =>
      getPathname (nth 0 args VUndef) (nth 1 args VUndef) (nth 2 args VUndef) (nth 3 args VUndef)
  | FnUser name => call_user name args
  end.

(** Override config settings from options if available: every key of the
    configuration that [options] has as an own property takes the value of
    [options]. *)
Definition override_config (config options : value) : value :=
  if to_boolean options && is_plain_object options then
    match config with
    | VObj fs => VObj (map (fun kv => (kv.1, if has options kv.1 then get options kv.1 else kv.2)) fs)
    | _ => config
    end
  else config.

(** If the resource name is not set, it is the pluralized collection name. *)
Definition resolve_resource (config : value) (collectionName : string) : value :=
  if to_boolean (get config "resource") then config
  else set config "resource" (VStr (pluralize collectionName)).

Definition pagination_keys : list string := ["skip"; "limit"; "offset"].

(** One round of the [forEach] over the pagination keys:
    [if (options[key] !== undefined) config.query[key] = options[key]]. *)
Definition copy_key (options : value) (acc : exn + value) (key : string) : exn + value :=
  match acc with
  | inl e => inl e
  | inr query =>
      if is_undef (get options key) then inr query
      else if nullish query then inl (TypeError "config.query is undefined")
      else inr (set query key (get options key))
  end.

Definition copy_pagination (options query : value) : exn + value :=
  fold_left (copy_key options) pagination_keys (inr query).

(** What the selector step decides: the call is fanned out, or it goes on
    with a pathname, the caller's [options] as they are now, the
    configuration and [opt]. *)
Inductive routed :=
| FanOut
| Route (pathname options config opt : value).

(** After the override an object-valued key that both [config] and [options]
    have names one shared object: a change made through one is seen through
    the other. *)
Definition share (owner : value) (k : string) (x : value) : value :=
  if has owner k then set owner k x else owner.

(** The placement of the remaining selector by verb. *)
Definition route_verb (restMethod pathname options config : value) : exn + routed :=
  if is_str restMethod "get" then
    match copy_pagination options (extend (get config "query") (js_or (get options "where") (VObj []))) with
    | inl e => inl e
    | inr query =>
        inr (Route pathname
                   (if has config "query" then share options "query" query else options)
                   (share config "query" query)
                   VUndef)
    end
  else if (0 <? size_of (get options "where"))%nat then
    inr (Route pathname options config (get options "where"))
  else
    inr (Route pathname (del options "where") config VUndef).

(** The block [if (options && options.where) { ... }]. *)
Definition route_selector (methodName : string) (restMethod pathname options config : value)
  : exn + routed :=
  if to_boolean options && to_boolean (get options "where") then
    if to_boolean (get (get options "where") "id") then
      let where_ := del (get options "where") "id" in
      route_verb restMethod
                 (VStr (to_string pathname ++ "/" ++ to_string (get (get options "where") "id")))
                 (set options "where" where_)
                 (share config "where" where_)
    else if String.eqb methodName "destroy" || String.eqb methodName "update" then
      inr FanOut
    else
      route_verb restMethod pathname options config
  else inr (Route pathname options config VUndef).

(** Which object the body handed to the client is. *)
Inductive alias :=
| TheWhere
| TheOptions
| TheValues.

(** The block [if (!opt && values) { ... }]: the body, the caller's options
    afterwards, and the object the body is. *)
Definition assemble_opt (opt values options : value) : value * value * option alias :=
  if negb (to_boolean opt) && to_boolean values then
    if to_boolean options
    then (extend options values, extend options values, Some TheOptions)
    else (values, options, Some TheValues)
  else (opt, options, if to_boolean opt then Some TheWhere else None).

(** A request that is ready to be sent. *)
Record direct := {
  d_restMethod : value;
  d_config : value;
  d_uri : string;
  d_path : string;
  d_opt : value;
  d_alias : option alias;
  d_options : value
}.

Inductive plan :=
| Invalid (restMethod : value)
| Enumerate
| Send (d : direct).

(** [request] from its first line to the formatting of the URI (lines
    158-239): the validation of the verb, the override of the configuration,
    the resource name, the pathname, the selector block and the assembly of
    the body. *)
Definition plan_request (self : Resource) (collectionName methodName : string)
           (options values : value) : exn + plan :=
  let config := r_config self in
  if nullish config then inl (TypeError "config is undefined") else
  if nullish (get config "methods") then inl (TypeError "config.methods is undefined") else
  let restMethod := get (get config "methods") methodName in
  if negb (client_has (r_client self) restMethod) then inr (Invalid restMethod) else
  let config := resolve_resource (override_config config options) collectionName in
  match get config "getPathname" with
  | VFun f =>
      match route_selector methodName restMethod
                           (apply_fn f [config; restMethod; values; options])
                           options config with
      | inl e => inl e
      | inr FanOut => inr Enumerate
      | inr (Route pathname options config opt) =>
          let '(opt, options, a) := assemble_opt opt values options in
          let config := set config "pathname" pathname in
          let uri := url_format config in
          inr (Send {| d_restMethod := restMethod;
                       d_config := config;
                       d_uri := uri;
                       d_path := replace_first (client_href (r_client self)) "/" uri;
                       d_opt := opt;
                       d_alias := a;
                       d_options := options |})
      end
  | _ => inl (TypeError "config.getPathname is not a function")
  end.

(** The configuration of a call once the options have overridden it and the
    resource name is set. *)
Definition configured (self : Resource) (collectionName : string) (options : value) : value :=
  resolve_resource (override_config (r_config self) options) collectionName.

(** The selector once a truthy id has been taken out of it. *)
Definition stripped_selector (options : value) : value :=
  if to_boolean (get (get options "where") "id")
  then del (get options "where") "id"
  else get options "where".

(** A call passes the validation of the verb and has a function to compute
    its pathname with. *)
Definition well_configured (self : Resource) (collectionName methodName : string)
           (options : value) : Prop :=
  nullish (r_config self) = false /\
  nullish (get (r_config self) "methods") = false /\
  client_has (r_client self) (get (get (r_config self) "methods") methodName) = true /\
  is_function (get (configured self collectionName options) "getPathname") = true.

(** The options of the request made for one matched record. *)
Definition sub_options (id : value) : value :=
  VObj [("where", VObj [("id", id)])].

End Pipeline.

(** ** Callbacks, events and the state of a run *)

(** The functions passed as [callback]: a function of the caller, [_.noop],
    or the closure [function(err, results) { ... }] that [request] hands to
    [self.find] when it fans out. *)
Inductive callback :=
| CbUser (k : nat)
| CbNoop
| CbFanOut (collectionName methodName : string) (callback : callback) (values : value).

(** The variables the completion handler [cb] closes over. *)
Record handler := {
  h_callback : callback;
  h_methodName : string;
  h_collection : option collection;
  h_config : value;
  h_uri : string
}.

(** A call [client[restMethod](path, opt, cb)] or [client[restMethod](path, cb)]. *)
Record http_call := {
  c_verb : value;
  c_path : string;
  c_body : option value;
  c_body_is : option alias;
  c_cb : handler
}.

(** What a run does to the outside: calls of the client, calls of a
    function of the caller, writes to the cache engine. *)
Inductive event :=
| EvHttp (c : http_call)
| EvCallback (k : nat) (err : option error) (result : value)
| EvCacheSet (uri : string) (r : value)
| EvCacheDel (uri : string).

(** [st_cache] is the content of [this.cache.engine], [None] when the
    resource has no cache. *)
Record state := {
  st_cache : option (gmap string value);
  st_trace : list event
}.

Inductive outcome (A : Type) :=
| Ret (a : A) (st : state)
| Throw (e : exn) (st : state)
| OutOfFuel.
Arguments Ret {A} a st.
Arguments Throw {A} e st.
Arguments OutOfFuel {A}.

Definition M (A : Type) : Type := state -> outcome A.

Definition ret {A} (a : A) : M A := fun st => Ret a st.

Definition bind {A B} (m : M A) (f : A -> M B) : M B :=
  fun st =>
    match m st with
    | Ret a st' => f a st'
    | Throw e st' => Throw e st'
    | OutOfFuel => OutOfFuel
    end.

Definition throw {A} (e : exn) : M A := fun st => Throw e st.

Definition out_of_fuel {A} : M A := fun _ => OutOfFuel.

Definition lift {A} (r : exn + A) : M A :=
  match r with
  | inl e => throw e
  | inr a => ret a
  end.

Notation "x <- m ;; k" := (bind m (fun x => k))
  (at level 100, m at next level, right associativity).
Notation "m ;;; k" := (bind m (fun _ => k))
  (at level 100, right associativity).

Definition emit (e : event) : M unit :=
  fun st => Ret tt {| st_cache := st_cache st; st_trace := st_trace st ++ [e] |}.

Definition is_callback_of (k : nat) (e : event) : bool :=
  match e with
  | EvCallback k' _ _ => Nat.eqb k' k
  | _ => false
  end.

(** How many times the function [k] of the caller has been called. *)
Definition fired (k : nat) (trace : list event) : nat :=
  List.length (List.filter (is_callback_of k) trace).

(** The state after more events. *)
Definition record (es : list event) (st : state) : state :=
  {| st_cache := st_cache st; st_trace := st_trace st ++ es |}.

(** [cache && cache.engine.get(uri)] *)
Definition cached (st : state) (uri : string) : value :=
  match st_cache st with
  | Some engine => default VUndef (engine !! uri)
  | None => VUndef
  end.

Definition cache_get (uri : string) : M value :=
  fun st => Ret (cached st uri) st.

(** [if (cache) cache.engine.set(uri, r)] *)
Definition cache_set (uri : string) (r : value) : M unit :=
  fun st =>
    match st_cache st with
    | Some engine =>
        Ret tt {| st_cache := Some (<[uri := r]> engine);
                  st_trace := st_trace st ++ [EvCacheSet uri r] |}
    | None => Ret tt st
    end.

(** [if (cache) cache.engine.del(uri)] *)
Definition cache_del (uri : string) : M unit :=
  fun st =>
    match st_cache st with
    | Some engine =>
        Ret tt {| st_cache := Some (delete uri engine);
                  st_trace := st_trace st ++ [EvCacheDel uri] |}
    | None => Ret tt st
    end.

(** Running [f] on the elements of a list in order, as [_.each] does. *)
Fixpoint each {A} (f : A -> M unit) (l : list A) : M unit :=
  match l with
  | [] => ret tt
  | x :: rest => f x ;;; each f rest
  end.

(** A string as a collection: its characters. *)
Definition characters (s : string) : list value :=
  map (fun c => VStr (String c EmptyString)) (list_ascii_of_string s).

(** [_.each(results, function(result, i) ...)]: the elements with their
    index, or the properties of an object with their key. *)
Definition entries (results : value) : list (value * value) :=
  match results with
  | VArr xs => imap (fun i x => (VNum (Z.of_nat i), x)) xs
  | VStr s => imap (fun i x => (VNum (Z.of_nat i), x)) (characters s)
  | VObj fs => map (fun kv => (VStr kv.1, kv.2)) fs
  | _ => []
  end.

(** [(i + 1) === results.length] *)
Definition is_last (i results : value) : bool :=
  match i, get results "length" with
  | VNum n, VNum len => n + 1 =? len
  | VStr k, VStr len => String.eqb (k ++ "1") len
  | _, _ => false
  end.

(** ** request *)

Section Request.
Context `{Externals}.

Definition http_of (self : Resource) (collectionName methodName : string)
           (callback : callback) (d : direct) : http_call :=
  {| c_verb := d_restMethod d;
     c_path := d_path d;
     c_body := if to_boolean (d_opt d) then Some (d_opt d) else None;
     c_body_is := d_alias d;
     c_cb := {| h_callback := callback;
                h_methodName := methodName;
                h_collection := r_collections self collectionName;
                h_config := d_config d;
                h_uri := d_uri d |} |}.

(** The function given to [_.each] by the closure of the fan-out (lines
    195-204): the request for one matched record, with the callback of the
    caller for the last record and [_.noop] for the others. *)
Definition per_record (request : callback -> value -> value -> M value)
           (callback : callback) (values results : value) (ir : value * value) : M unit :=
  if nullish ir.2 then throw (TypeError "result is undefined") else
  request (if is_last ir.1 results then callback else CbNoop)
          (VObj [("where", VObj [("id", get ir.2 "id")])]) values ;;;
  ret tt.

(** [request] (lines 150-284, the completion handler apart) returns the
    [options] object of the caller as the call leaves it.  [invoke called err r]
    is the call [called(err, r)]; for the closure of the fan-out it is the body
    of lines 192-205. *)
Fixpoint request (fuel : nat) (self : Resource) (collectionName methodName : string)
         (callback : callback) (options values : value) {struct fuel} : M value :=
  match fuel with
  | O => out_of_fuel
  | S fuel =>
      match plan_request self collectionName methodName options values with
      | inl e => throw e
      | inr (Invalid restMethod) =>
          invoke fuel self callback
                 (Some (JsError ("Invalid REST method: " ++ to_string restMethod))) VUndef ;;;
          ret options
      | inr Enumerate =>
          request fuel self collectionName "find"
                  (CbFanOut collectionName methodName callback values) options VUndef
      | inr (Send d) =>
          r <- (if String.eqb methodName "find" then cache_get (d_uri d) else ret VUndef) ;;
          if to_boolean r then
            invoke fuel self callback None r ;;; ret (d_options d)
          else
            emit (EvHttp (http_of self collectionName methodName callback d)) ;;;
            ret (d_options d)
      end
  end
with invoke (fuel : nat) (self : Resource) (called : callback) (err : option error)
            (results : value) {struct fuel} : M unit :=
  match fuel with
  | O => out_of_fuel
  | S fuel =>
      match called with
      | CbUser k => emit (EvCallback k err results)
      | CbNoop => ret tt
      | CbFanOut collectionName methodName callback values =>
          match err with
          | Some e => invoke fuel self callback (Some e) VUndef
          | None =>
              each (per_record (request fuel self collectionName methodName)
                               callback values results)
                   (entries results)
          end
      end
  end.

(** The public operations. *)
Definition find fuel self collection options callback :=
  request fuel self collection "find" callback options VUndef.

Definition create fuel self collection values callback :=
  request fuel self collection "create" callback VNull values.

Definition update fuel self collection options values callback :=
  request fuel self collection "update" callback options values.

Definition destroy fuel self collection options callback :=
  request fuel self collection "destroy" callback options VUndef.

End Request.

(** ** The result formatters and the completion handler *)

Section Completion.
Context `{Externals}.

(** [if (_.isFunction(config[name])) x = config[name](x)] *)
Definition call_hook (config : value) (name : string) (x : value) : value :=
  match get config name with
  | VFun f => apply_fn f [x]
  | _ => x
  end.

(** [Resource.formatResult] *)
Definition formatResult (result : value) (collection : option collection) (config : value)
  : exn + value :=
  let result := call_hook config "beforeFormatResult" result in
  match collection with
  | None => inl (TypeError "collection is undefined")
  | Some c =>
      inr (call_hook config "afterFormatResult" (cast_run c (unserialize c result)))
  end.

Fixpoint map_exn {A B} (f : A -> exn + B) (l : list A) : exn + list B :=
  match l with
  | [] => inr []
  | x :: rest =>
      match f x with
      | inl e => inl e
      | inr y =>
          match map_exn f rest with
          | inl e => inl e
          | inr ys => inr (y :: ys)
          end
      end
  end.

(** What [_.map] iterates over. *)
Definition elements_of (v : value) : list value :=
  match v with
  | VArr xs => xs
  | VStr s => characters s
  | VObj fs => map snd fs
  | _ => []
  end.

(** [Resource.formatResults] *)
Definition formatResults (results : value) (collection : option collection) (config : value)
  : exn + value :=
  let results := call_hook config "beforeFormatResults" results in
  match map_exn (fun result => formatResult result collection config) (elements_of results) with
  | inl e => inl e
  | inr rs => inr (call_hook config "afterFormatResults" (VArr rs))
  end.

(** [Resource.getResultsAsCollection] *)
Definition getResultsAsCollection (data : value) (collection : option collection) (config : value)
  : exn + value :=
  if nullish data then inl (TypeError "data is undefined") else
  let d := js_or (get data "objects") (js_or (get data "results") data) in
  formatResults (if is_array d then d else VArr [d]) collection config.

(** [res && /^(4|5)\d+$/.test(res.statusCode.toString())] *)
Definition responseErrorCode (res : value) : exn + value :=
  if to_boolean res then
    if nullish (get res "statusCode") then inl (TypeError "res.statusCode is undefined")
    else inr (VBool (error_code_regex (to_string (get res "statusCode"))))
  else inr res.

(** [err && (res === undefined || res === null || responseErrorCode)] *)
Definition is_failure (err res : value) : exn + bool :=
  match responseErrorCode res with
  | inl e => inl e
  | inr code => inr (to_boolean err && (is_undef res || is_null res || to_boolean code))
  end.

Definition meta_of (req res data : value) : value :=
  VObj [("req", req); ("res", res); ("data", data)].

(** The [else] branch of the completion handler: the result is formatted,
    the cache is written or invalidated, and the callback is called. *)
Definition succeed (fuel : nat) (self : Resource) (h : handler) (data : value) : M unit :=
  if String.eqb (h_methodName h) "find" then
    r <- lift (getResultsAsCollection data (h_collection h) (h_config h)) ;;
    cache_set (h_uri h) r ;;;
    invoke fuel self (h_callback h) None r
  else
    r <- lift (formatResult data (h_collection h) (h_config h)) ;;
    cache_del (h_uri h) ;;;
    invoke fuel self (h_callback h) None r.

(** The completion handler [cb] of a call, run on the answer of the client. *)
Definition cb (fuel : nat) (self : Resource) (h : handler) (err req res data : value)
  : M unit :=
  failed <- lift (is_failure err res) ;;
  if failed : bool then
    invoke fuel self (h_callback h)
           (Some (RestError (get err "message") (meta_of req res data))) VUndef
  else succeed fuel self h data.

End Completion.

(** ** Notions the properties are stated with *)

(** The events that write to the cache. *)
Definition is_cache_event (e : event) : bool :=
  match e with
  | EvCacheSet _ _ | EvCacheDel _ => true
  | _ => false
  end.

(** [st'] is [st] after some events, none of them a cache write, with the
    cache as it was. *)
Definition only_adds_calls (st st' : state) : Prop :=
  st_cache st' = st_cache st /\
  exists es : list event,
    st_trace st' = (st_trace st ++ es)%list /\
    forallb (fun e => negb (is_cache_event e)) es = true.

Definition keeps_to_calls {A} (st : state) (o : outcome A) : Prop :=
  match o with
  | Ret _ st' | Throw _ st' => only_adds_calls st st'
  | OutOfFuel => True
  end.

Section Derived.
Context `{Externals}.

(** The body of [Resource.formatResult] for a registered collection: the
    [beforeFormatResult] hook, the transformer, the cast, and the
    [afterFormatResult] hook. *)
Definition format_one (c : collection) (config result : value) : value :=
  call_hook config "afterFormatResult"
            (cast_run c (unserialize c (call_hook config "beforeFormatResult" result))).

(** What [Resource.getPathname] returns on a configuration whose resource
    name has been resolved for the collection [cn]. *)
Definition base_pathname (config : value) (cn : string) : string :=
  to_string (get config "pathname") ++ "/"
  ++ (if to_boolean (get config "resource")
      then to_string (get config "resource") else pluralize cn)
  ++ (if to_boolean (get config "action")
      then "/" ++ to_string (get config "action") else "").

End Derived.

(** ** A concrete resource *)

Module Demo.

#[export] Instance externals : Externals := {|
  pluralize s := s ++ "s";
  url_format config :=
    "http://localhost:8080" ++ to_string (get config "pathname")
    ++ (if (0 <? size_of (get config "query"))%nat
        then "?" ++ String.concat "&" (map (fun kv => kv.1 ++ "=" ++ to_string kv.2)
                                           (own_entries (get config "query")))
        else "");
  call_user _ args := nth 0 args VUndef
|}.

Definition widgets : collection := {| unserialize r := r; cast_run r := r |}.

Definition restify : client :=
  {| client_ops := ["get"; "post"; "put"; "del"; "head"];
     client_href := "http://localhost:8080/" |}.

Definition methods : value :=
  VObj [("create", VStr "post"); ("find", VStr "get");
        ("update", VStr "put"); ("destroy", VStr "del")].

Definition config : value :=
  VObj [("protocol", VStr "http"); ("hostname", VStr "localhost"); ("port", VNum 8080);
        ("pathname", VStr ""); ("resource", VUndef); ("action", VUndef);
        ("query", VObj []); ("methods", methods);
        ("getPathname", VFun FnGetPathname)].

Definition registry (name : string) : option collection :=
  if String.eqb name "widget" then Some widgets else None.

Definition resource : Resource :=
  {| r_client := restify; r_config := config; r_collections := registry |}.

(** The same resource with [find] mapped to a verb the client does not have. *)
Definition misconfigured : Resource :=
  {| r_client := restify;
     r_config := set config "methods" (set methods "find" (VStr "fetch"));
     r_collections := registry |}.

(** The same resource with no [getPathname] in its configuration. *)
Definition pathless : Resource :=
  {| r_client := restify; r_config := del config "getPathname"; r_collections := registry |}.

Definition red_widgets : value := VObj [("where", VObj [("color", VStr "red")])].

Definition widget (id : Z) : value := VObj [("where", VObj [("id", VNum id)])].

Definition red_widget (id : Z) : value :=
  VObj [("where", VObj [("id", VNum id); ("color", VStr "red")])].

Definition price (p : Z) : value := VObj [("price", VNum p)].

Definition ok : value := VObj [("statusCode", VNum 200)].

Definition not_found : value := VObj [("statusCode", VNum 404)].

Definition timeout : value := VObj [("message", VStr "socket hang up")].

Definition fresh : state := {| st_cache := None; st_trace := [] |}.

Definition with_cache (engine : gmap string value) : state :=
  {| st_cache := Some engine; st_trace := [] |}.

(** The completion handler of a [find] on the widgets. *)
Definition on_found : handler :=
  {| h_callback := CbUser 0;
     h_methodName := "find";
     h_collection := Some widgets;
     h_config := config;
     h_uri := "http://localhost:8080/widgets" |}.

End Demo.

(** * Properties *)

(** ** Own properties of objects *)

Lemma get_set_field_eq k v fs : get_field k (set_field k v fs) = v.
Proof.
  induction fs as [|[k' v'] fs IH]; simpl.
  - by rewrite String.eqb_refl.
  - destruct (String.eqb k k') eqn:E; simpl; rewrite ?String.eqb_refl, ?E; done.
Qed.

Lemma get_set_field_ne k k' v fs :
  k ≠ k' -> get_field k (set_field k' v fs) = get_field k fs.
Proof.
  intros Hne. apply String.eqb_neq in Hne.
  induction fs as [|[k2 v2] fs IH]; simpl.
  - by rewrite Hne.
  - destruct (String.eqb k' k2) eqn:E; simpl.
    + apply String.eqb_eq in E as <-. by rewrite Hne.
    + by rewrite IH.
Qed.

Lemma has_set_field k k' v fs :
  has_field k (set_field k' v fs) = String.eqb k k' || has_field k fs.
Proof.
  induction fs as [|[k2 v2] fs IH]; simpl.
  - by rewrite orb_false_r.
  - destruct (String.eqb k' k2) eqn:E; simpl.
    + apply String.eqb_eq in E as <-. by destruct (String.eqb k k').
    + rewrite IH. by destruct (String.eqb k k'), (String.eqb k k2).
Qed.

Lemma has_delete_field_eq k fs : has_field k (delete_field k fs) = false.
Proof.
  induction fs as [|[k' v'] fs IH]; simpl; [done|].
  destruct (String.eqb k k') eqn:E; simpl; rewrite ?E; done.
Qed.

Lemma get_delete_field_eq k fs : get_field k (delete_field k fs) = VUndef.
Proof.
  induction fs as [|[k' v'] fs IH]; simpl; [done|].
  destruct (String.eqb k k') eqn:E; simpl; rewrite ?E; done.
Qed.

Lemma delete_set_field k v fs : delete_field k (set_field k v fs) = delete_field k fs.
Proof.
  induction fs as [|[k' v'] fs IH]; simpl.
  - by rewrite String.eqb_refl.
  - destruct (String.eqb k k') eqn:E; simpl; rewrite ?String.eqb_refl, ?E; [done|].
    by rewrite IH.
Qed.

Lemma has_field_get k fs : has_field k fs = false -> get_field k fs = VUndef.
Proof.
  induction fs as [|[k' v'] fs IH]; simpl; [done|].
  destruct (String.eqb k k'); simpl; [done|auto].
Qed.

Lemma get_fold_set_field k es fs :
  has_field k es = false ->
  get_field k (fold_left (fun acc kv => set_field kv.1 kv.2 acc) es fs) = get_field k fs.
Proof.
  revert fs. induction es as [|[k' v'] es IH]; intros fs Hk; simpl in *; [done|].
  apply orb_false_iff in Hk as [Hne Hk]. rewrite IH by done.
  apply get_set_field_ne. by apply String.eqb_neq.
Qed.

Lemma has_fold_set_field k es fs :
  has_field k (fold_left (fun acc kv => set_field kv.1 kv.2 acc) es fs)
  = has_field k fs || has_field k es.
Proof.
  revert fs. induction es as [|[k' v'] es IH]; intros fs; simpl.
  - by rewrite orb_false_r.
  - rewrite IH, has_set_field. by destruct (String.eqb k k'), (has_field k fs), (has_field k es).
Qed.

(** A property that reads as a truthy value is a property of an object. *)
Lemma truthy_get_is_object v k :
  to_boolean (get v k) = true -> k ≠ "length" -> exists fs, v = VObj fs.
Proof.
  intros Ht Hk. apply String.eqb_neq in Hk.
  destruct v; simpl in Ht; rewrite ?Hk in Ht; try done. by eexists.
Qed.

Lemma get_set_eq v k x : is_plain_object v = true -> get (set v k x) k = x.
Proof. destruct v; try done. intros _. apply get_set_field_eq. Qed.

Lemma get_set_ne v k k' x : k <> k' -> get (set v k' x) k = get v k.
Proof. intros Hne. destruct v; try done. simpl. by apply get_set_field_ne. Qed.

Lemma has_del v k : has (del v k) k = false.
Proof. destruct v; try done. apply has_delete_field_eq. Qed.

Lemma get_del_eq v k : k <> "length" -> get (del v k) k = VUndef.
Proof.
  intros Hk. apply String.eqb_neq in Hk.
  destruct v; simpl; rewrite ?Hk; try done. apply get_delete_field_eq.
Qed.

Lemma has_set_ne v k k' x : k <> k' -> has (set v k' x) k = has v k.
Proof.
  intros Hne. apply String.eqb_neq in Hne. destruct v; try done. simpl.
  by rewrite has_set_field, Hne.
Qed.

Lemma has_delete_field_ne k k' fs :
  k <> k' -> has_field k (delete_field k' fs) = has_field k fs.
Proof.
  intros Hne. apply String.eqb_neq in Hne.
  induction fs as [|[k2 v2] fs IH]; simpl; [done|].
  destruct (String.eqb k' k2) eqn:E; simpl.
  - apply String.eqb_eq in E as <-. by rewrite Hne.
  - by rewrite IH.
Qed.

Lemma has_del_ne v k k' : k <> k' -> has (del v k') k = has v k.
Proof. intros Hne. destruct v; try done. simpl. by apply has_delete_field_ne. Qed.

Lemma set_object v k x : is_plain_object (set v k x) = is_plain_object v.
Proof. by destruct v. Qed.

Lemma has_extend dest src k :
  is_plain_object dest = true ->
  has (extend dest src) k = has dest k || has_field k (own_entries src).
Proof. destruct dest; try done. intros _. apply has_fold_set_field. Qed.

Lemma positive_size_truthy v : (0 < size_of v)%nat -> to_boolean v = true.
Proof.
  destruct v as [| | | |s| | |]; simpl; try lia; try done.
  destruct s; simpl; [lia|done].
Qed.

Lemma size_zero_not_positive v : size_of v = 0%nat -> (0 <? size_of v)%nat = false.
Proof. intros ->. done. Qed.

(** ** The status test on three-digit codes *)

Lemma error_code_regex_three_digits (sc : Z) :
  100 <= sc <= 999 ->
  error_code_regex (pretty sc) = (400 <=? sc) && (sc <=? 599).
Proof.
  intros Hsc.
  assert (Hall : forallb (fun n => Bool.eqb (error_code_regex (pretty (Z.of_nat n + 100)))
                                            ((400 <=? Z.of_nat n + 100) && (Z.of_nat n + 100 <=? 599)))
                         (seq 0 900) = true) by (vm_compute; reflexivity).
  rewrite forallb_forall in Hall.
  specialize (Hall (Z.to_nat (sc - 100))).
  replace (Z.of_nat (Z.to_nat (sc - 100)) + 100) with sc in Hall by lia.
  apply Bool.eqb_prop, Hall, in_seq. lia.
Qed.

Section Properties.
Context `{Externals}.

(** ** The completion handler *)

Lemma number_to_string_small n :
  0 <= n <= 9007199254740992 -> number_to_string n = pretty n.
Proof.
  intros Hn. unfold number_to_string, positive_to_string.
  destruct (n <? 0) eqn:Hneg; [lia|].
  destruct (n <=? 9007199254740992) eqn:Hle; [done|lia].
Qed.

Lemma is_failure_without_response err res :
  nullish res = true -> is_failure err res = inr (to_boolean err).
Proof.
  intros Hres. destruct res; try discriminate Hres; unfold is_failure; simpl;
    by rewrite andb_true_r.
Qed.

Lemma is_failure_with_status err res sc :
  get res "statusCode" = VNum sc -> 100 <= sc <= 999 ->
  is_failure err res = inr (to_boolean err && ((400 <=? sc) && (sc <=? 599))).
Proof.
  intros Hsc Hrange.
  destruct (truthy_get_is_object res "statusCode") as [fs ->].
  { rewrite Hsc. simpl. destruct (sc =? 0) eqn:E; [lia|done]. }
  { done. }
  unfold is_failure, responseErrorCode. rewrite Hsc. cbn [to_boolean nullish to_string].
  rewrite number_to_string_small by lia. rewrite error_code_regex_three_digits by done.
  by simpl.
Qed.

(** C6.  The completion handler, on a response that is absent ([undefined]
    or [null]) or carries a three-digit status code: the response is
    classified as failed exactly when the transport error is truthy and the
    response is absent or its status code lies in 400..599.  A transport
    error with a 2xx or 3xx status is therefore not a failure and goes
    through the success branch.  A failure calls the callback once with a
    [RestError] whose message is the message of the transport error (the
    default message when that one is falsy) and whose metadata is the object
    [{req, res, data}] of the request, the response and the data. *)
Theorem completion_classifies_failure fuel self h k err req res data sc st :
  h_callback h = CbUser k ->
  nullish res = true \/ (get res "statusCode" = VNum sc /\ 100 <= sc <= 999) ->
  let failed := to_boolean err && (nullish res || ((400 <=? sc) && (sc <=? 599))) in
  is_failure err res = inr failed /\
  cb (S fuel) self h err req res data st =
    (if failed
     then Ret tt (record [EvCallback k
                            (Some (RestErr "RestError"
                                     (if to_boolean (get err "message")
                                      then get err "message"
                                      else VStr "REST Error Message")
                                     (VObj [("req", req); ("res", res); ("data", data)])))
                            VUndef] st)
     else succeed (S fuel) self h data st).
Proof.
  intros Hcb Hres failed.
  assert (Hf : is_failure err res = inr failed).
  { subst failed. destruct Hres as [Hnull | [Hsc Hrange]].
    - rewrite Hnull. simpl. rewrite andb_true_r. by apply is_failure_without_response.
    - rewrite (is_failure_with_status _ _ sc) by done.
      destruct (truthy_get_is_object res "statusCode") as [fs ->]; [|done|done].
      rewrite Hsc. simpl. destruct (sc =? 0) eqn:E; [lia|done]. }
  split; [done|].
  unfold cb, bind. rewrite Hf. simpl. destruct failed; [|done].
  rewrite Hcb. unfold RestError, meta_of, js_or. by cbn [to_boolean].
Qed.

(** ** Calls that are sent, calls that are rejected *)

Lemma request_send fuel self cn mn k options values d st :
  plan_request self cn mn options values = inr (Send d) ->
  request (S (S fuel)) self cn mn (CbUser k) options values st =
    let r := if String.eqb mn "find" then cached st (d_uri d) else VUndef in
    Ret (d_options d)
        (record [if to_boolean r then EvCallback k None r
                 else EvHttp (http_of self cn mn (CbUser k) d)] st).
Proof.
  intros Hplan. simpl. rewrite Hplan. unfold bind.
  destruct (String.eqb mn "find"); simpl.
  - unfold cache_get. destruct (to_boolean (cached st (d_uri d))); reflexivity.
  - reflexivity.
Qed.

(** C7.  A [find] that reaches the formatting of its URI while the cache
    holds an array under that URI calls the callback with that array and does
    nothing else: no call of the client is recorded and the cache is left as
    it is. *)
Theorem find_served_from_cache fuel self cn k options d engine xs st :
  plan_request self cn "find" options VUndef = inr (Send d) ->
  st_cache st = Some engine ->
  engine !! d_uri d = Some (VArr xs) ->
  find (S (S fuel)) self cn options (CbUser k) st
  = Ret (d_options d) (record [EvCallback k None (VArr xs)] st).
Proof.
  intros Hplan Hcache Hhit. unfold find.
  rewrite (request_send _ _ _ _ _ _ _ d) by done. simpl.
  unfold cached. rewrite Hcache, Hhit. reflexivity.
Qed.

(** C8.  For [create], [update] and [destroy], when the call is sent: the
    only thing the call does is to hand the request to the client, and when
    the answer is not a failure the completion handler, with a cache
    configured, deletes the entry under the URI of the call and only then
    calls the callback; afterwards the cache has no entry under that URI. *)
Theorem mutation_invalidates_own_uri fuel self cn mn k options values d c engine
        err req res data st st' :
  mn = "create" \/ mn = "update" \/ mn = "destroy" ->
  plan_request self cn mn options values = inr (Send d) ->
  r_collections self cn = Some c ->
  is_failure err res = inr false ->
  st_cache st' = Some engine ->
  let call := http_of self cn mn (CbUser k) d in
  let r := call_hook (d_config d) "afterFormatResult"
             (cast_run c (unserialize c (call_hook (d_config d) "beforeFormatResult" data))) in
  request (S (S fuel)) self cn mn (CbUser k) options values st
  = Ret (d_options d) (record [EvHttp call] st) /\
  cb (S fuel) self (c_cb call) err req res data st'
  = Ret tt {| st_cache := Some (delete (d_uri d) engine);
              st_trace := st_trace st' ++ [EvCacheDel (d_uri d); EvCallback k None r] |} /\
  delete (d_uri d) engine !! d_uri d = None.
Proof.
  intros Hmn Hplan Hcoll Hok Hcache call r.
  assert (Hfind : String.eqb mn "find" = false) by (by destruct Hmn as [->|[->| ->]]).
  split; [|split].
  - rewrite (request_send _ _ _ _ _ _ _ d) by done. by rewrite Hfind.
  - unfold cb, bind. rewrite Hok. simpl.
    unfold succeed, bind. simpl. rewrite Hfind, Hcoll. unfold formatResult. simpl.
    unfold cache_del. rewrite Hcache. simpl. unfold emit, record. simpl.
    by rewrite <- app_assoc.
  - apply lookup_delete_eq.
Qed.

(** C2, amended.  When the verb the method maps to is not an operation of
    the client, [request] calls the callback exactly once, with
    [new Error("Invalid REST method: " + verb)], a plain [Error] and not a
    [RestError]; it makes no call of the client and leaves the options of the
    caller as they are. *)
Theorem invalid_verb_fails_without_request fuel self cn mn k options values st :
  nullish (r_config self) = false ->
  nullish (get (r_config self) "methods") = false ->
  client_has (r_client self) (get (get (r_config self) "methods") mn) = false ->
  let e := JsError ("Invalid REST method: " ++ to_string (get (get (r_config self) "methods") mn)) in
  request (S (S fuel)) self cn mn (CbUser k) options values st
  = Ret options (record [EvCallback k (Some e) VUndef] st) /\
  is_rest_error e = false.
Proof.
  intros Hcfg Hmethods Hverb e. split; [|done].
  simpl. unfold plan_request. rewrite Hcfg, Hmethods, Hverb. reflexivity.
Qed.

(** ** The selector block and the body *)

Lemma plan_send_inv self cn mn options values d :
  plan_request self cn mn options values = inr (Send d) ->
  exists f pathname options' config' opt,
    client_has (r_client self) (get (get (r_config self) "methods") mn) = true /\
    get (configured self cn options) "getPathname" = VFun f /\
    route_selector mn (get (get (r_config self) "methods") mn)
                   (apply_fn f [configured self cn options;
                                get (get (r_config self) "methods") mn; values; options])
                   options (configured self cn options)
    = inr (Route pathname options' config' opt) /\
    d = {| d_restMethod := get (get (r_config self) "methods") mn;
           d_config := set config' "pathname" pathname;
           d_uri := url_format (set config' "pathname" pathname);
           d_path := replace_first (client_href (r_client self)) "/"
                                   (url_format (set config' "pathname" pathname));
           d_opt := (assemble_opt opt values options').1.1;
           d_alias := (assemble_opt opt values options').2;
           d_options := (assemble_opt opt values options').1.2 |}.
Proof.
  unfold plan_request, configured. intros Hplan.
  destruct (nullish (r_config self)); [done|].
  destruct (nullish (get (r_config self) "methods")); [done|].
  destruct (client_has _ _); [|done]. simpl in Hplan.
  destruct (get (resolve_resource _ _) "getPathname") as [| | | | | | |f] eqn:Hgp; try done.
  destruct (route_selector _ _ _ _ _) as [e|[|pathname options' config' opt]] eqn:Hroute;
    try done.
  exists f, pathname, options', config', opt.
  destruct (assemble_opt opt values options') as [[opt' o'] a].
  by simplify_eq.
Qed.

Lemma share_object v k x : is_plain_object (share v k x) = is_plain_object v.
Proof. unfold share. destruct (has v k); [apply set_object|done]. Qed.

Lemma get_share_ne v k k' x : k <> k' -> get (share v k' x) k = get v k.
Proof. intros Hne. unfold share. destruct (has v k'); [by apply get_set_ne|done]. Qed.

Lemma stripped_of_set options :
  to_boolean (get options "where") = true ->
  get (set options "where" (del (get options "where") "id")) "where"
  = del (get options "where") "id".
Proof.
  intros Hw. destruct (truthy_get_is_object options "where") as [fs ->]; [done|done|].
  apply get_set_field_eq.
Qed.

Lemma truthy_where_options options :
  to_boolean (get options "where") = true -> to_boolean options = true.
Proof. intros Hw. by destruct (truthy_get_is_object options "where") as [fs ->]. Qed.

(** In the selector block a call that is not fanned out reaches the
    placement by verb with the selector stripped of a truthy id. *)
Lemma route_selector_entered mn rm p options config r :
  to_boolean options = true ->
  to_boolean (get options "where") = true ->
  route_selector mn rm p options config = inr r ->
  r <> FanOut ->
  exists p1 o1 c1,
    route_verb rm p1 o1 c1 = inr r /\
    get o1 "where" = stripped_selector options /\
    (forall k, k <> "where" -> get o1 k = get options k /\ get c1 k = get config k) /\
    p1 = (if to_boolean (get (get options "where") "id")
          then VStr (to_string p ++ "/" ++ to_string (get (get options "where") "id"))
          else p) /\
    o1 = (if to_boolean (get (get options "where") "id")
          then set options "where" (del (get options "where") "id")
          else options) /\
    c1 = (if to_boolean (get (get options "where") "id")
          then share config "where" (del (get options "where") "id")
          else config).
Proof.
  intros Ho Hw Hr Hnf. unfold route_selector in Hr. rewrite Ho, Hw in Hr. simpl in Hr.
  unfold stripped_selector.
  destruct (to_boolean (get (get options "where") "id")) eqn:Hid.
  - eexists _, _, _. split; [exact Hr|]. split; [by apply stripped_of_set|].
    split; [|done]. intros k Hk. split; [by apply get_set_ne|by apply get_share_ne].
  - destruct (String.eqb mn "destroy" || String.eqb mn "update"); [by simplify_eq|].
    eexists _, _, _. split; [exact Hr|]. done.
Qed.

(** C1, amended.  For a call that is sent with a verb other than [get] and
    whose selector is not empty once a truthy id is taken out of it, the body
    handed to the client is that remaining selector itself, whatever the
    values are: the values are not merged into it. *)
Theorem remaining_selector_is_the_body self cn mn callback options values d :
  plan_request self cn mn options values = inr (Send d) ->
  is_str (d_restMethod d) "get" = false ->
  to_boolean (get options "where") = true ->
  (0 < size_of (stripped_selector options))%nat ->
  d_opt d = stripped_selector options /\
  d_alias d = Some TheWhere /\
  c_body (http_of self cn mn callback d) = Some (stripped_selector options).
Proof.
  intros Hplan Hverb Hw Hsize. pose proof (truthy_where_options _ Hw) as Ho.
  destruct (plan_send_inv _ _ _ _ _ _ Hplan) as (f & p & o' & c' & opt & _ & _ & Hroute & ->).
  simpl in *.
  destruct (route_selector_entered _ _ _ _ _ _ Ho Hw Hroute) as (p1 & o1 & c1 & Hrv & Hwhere & _);
    [done|].
  unfold route_verb in Hrv. rewrite Hverb, Hwhere in Hrv.
  apply Nat.ltb_lt in Hsize as Hsize'. rewrite Hsize' in Hrv. simplify_eq.
  unfold assemble_opt. rewrite (positive_size_truthy _ Hsize). simpl.
  by rewrite (positive_size_truthy _ Hsize).
Qed.

Lemma copy_key_object options fs key :
  copy_key options (inr (VObj fs)) key
  = inr (VObj (if is_undef (get options key) then fs else set_field key (get options key) fs)).
Proof. unfold copy_key. by destruct (is_undef (get options key)). Qed.

(** On an object the pagination round gives an object that holds every
    defined pagination option. *)
Lemma copy_pagination_object options fs :
  exists fs', copy_pagination options (VObj fs) = inr (VObj fs') /\
    forall key, In key pagination_keys -> get options key <> VUndef ->
      has_field key fs' = true /\ get_field key fs' = get options key.
Proof.
  unfold copy_pagination, pagination_keys. cbn [fold_left]. rewrite !copy_key_object.
  eexists. split; [reflexivity|].
  intros key Hin Hdef.
  assert (Hu : is_undef (get options key) = false) by (by destruct (get options key)).
  simpl in Hin. destruct Hin as [<-|[<-|[<-|[]]]]; rewrite ?Hu;
    repeat match goal with
           | |- context [if ?b then _ else _] => destruct b
           end;
    rewrite ?has_set_field, ?get_set_field_eq; simpl;
    rewrite ?get_set_field_ne by done; rewrite ?get_set_field_eq; done.
Qed.

Lemma copy_pagination_not_object options q q' :
  copy_pagination options q = inr q' -> is_plain_object q = false -> is_plain_object q' = false.
Proof.
  unfold copy_pagination, pagination_keys, copy_key. intros Hc Hq.
  destruct q; try done; simpl in Hc;
    repeat match type of Hc with
           | context [if ?b then _ else _] => destruct b
           end; by simplify_eq.
Qed.

Lemma get_resolve_resource config cn k :
  k <> "resource" -> get (resolve_resource config cn) k = get config k.
Proof.
  intros Hk. unfold resolve_resource. destruct (to_boolean _); [done|]. by apply get_set_ne.
Qed.

(** X18.  What the pipeline does with [skip], [limit] and [offset] once it
    is inside the selector block.  For a call that is sent with the verb
    [get], a truthy selector in the options and an object as configured
    query, every one of the three that is defined in the options is a query
    parameter of the request, with the value of the option; with any other
    verb the query parameters are those of the configuration as overridden
    by the options, nothing is copied into them. *)
Theorem pagination_follows_the_verb self cn mn options values d :
  plan_request self cn mn options values = inr (Send d) ->
  (is_str (d_restMethod d) "get" = true ->
   to_boolean (get options "where") = true ->
   is_plain_object (get (d_config d) "query") = true ->
   forall key, key = "skip" \/ key = "limit" \/ key = "offset" ->
     get options key <> VUndef ->
     has (get (d_config d) "query") key = true /\
     get (get (d_config d) "query") key = get options key) /\
  (is_str (d_restMethod d) "get" = false ->
   get (d_config d) "query" = get (override_config (r_config self) options) "query").
Proof.
  intros Hplan.
  destruct (plan_send_inv _ _ _ _ _ _ Hplan) as (f & p & o' & c' & opt & _ & _ & Hroute & ->).
  simpl. rewrite get_set_ne by done. split.
  - intros Hverb Hw Hq key Hkey Hdef.
    assert (Hin : In key pagination_keys).
    { unfold pagination_keys. destruct Hkey as [-> | [-> | ->]]; simpl; auto. }
    destruct (route_selector_entered _ _ _ _ _ _ (truthy_where_options _ Hw) Hw Hroute)
      as (p1 & o1 & c1 & Hrv & Hwhere & Hsame & _); [done|].
    unfold route_verb in Hrv. rewrite Hverb in Hrv.
    destruct (copy_pagination _ _) as [e|query] eqn:Hcopy; [done|]. simplify_eq.
    unfold share in Hq |- *. destruct (has c1 "query") eqn:Hhas; cycle 1.
    { destruct c1 as [| | | | | |cfs|]; try done. simpl in Hq, Hhas.
      by rewrite (has_field_get _ _ Hhas) in Hq. }
    assert (Hc1 : is_plain_object c1 = true) by (by destruct c1).
    rewrite get_set_eq in Hq |- * by done.
    destruct (get c1 "query") as [| | | | | |qfs|] eqn:Hcq;
      try (by rewrite (copy_pagination_not_object _ _ _ Hcopy) in Hq).
    simpl in Hcopy.
    match type of Hcopy with
    | copy_pagination _ (VObj ?l) = _ =>
        destruct (copy_pagination_object o1 l) as (fs' & Hcp & Hkeys)
    end.
    rewrite Hcp in Hcopy. simplify_eq. simpl.
    assert (Hk : key <> "where").
    { unfold pagination_keys in Hin. simpl in Hin. by destruct Hin as [<-|[<-|[<-|[]]]]. }
    destruct (Hsame key Hk) as [Hko _]. rewrite <- Hko. apply Hkeys; [done|].
    by rewrite Hko.
  - intros Hverb.
    unfold route_selector in Hroute.
    destruct (to_boolean options && to_boolean (get options "where")) eqn:Hblock; cycle 1.
    { simplify_eq. unfold configured. by rewrite get_resolve_resource. }
    apply andb_true_iff in Hblock as [Ho Hw].
    assert (Hroute' : route_selector mn (get (get (r_config self) "methods") mn)
                        (apply_fn f [configured self cn options;
                                     get (get (r_config self) "methods") mn; values; options])
                        options (configured self cn options) = inr (Route p o' c' opt)).
    { unfold route_selector. by rewrite Ho, Hw. }
    destruct (route_selector_entered _ _ _ _ _ _ Ho Hw Hroute')
      as (p1 & o1 & c1 & Hrv & Hwhere & Hsame & _); [done|].
    unfold route_verb in Hrv. rewrite Hverb in Hrv.
    destruct (0 <? size_of (get o1 "where"))%nat; simplify_eq;
      destruct (Hsame "query") as [_ ->]; try done;
      unfold configured; by rewrite get_resolve_resource.
Qed.

Lemma stripped_selector_has_no_id options :
  to_boolean (get (get options "where") "id") = true ->
  has (stripped_selector options) "id" = false.
Proof. intros Hid. unfold stripped_selector. rewrite Hid. apply has_del. Qed.


(** The options of a sent call after the selector block and the merge of the
    values. *)
Lemma send_options_inv self cn mn options values d :
  plan_request self cn mn options values = inr (Send d) ->
  to_boolean (get options "where") = true ->
  exists o1 o' opt,
    o1 = (if to_boolean (get (get options "where") "id")
          then set options "where" (del (get options "where") "id")
          else options) /\
    is_plain_object o' = true /\
    (if is_str (d_restMethod d) "get"
     then opt = VUndef /\ get o' "where" = stripped_selector options
     else if (0 <? size_of (stripped_selector options))%nat
          then opt = stripped_selector options /\ o' = o1
          else opt = VUndef /\ o' = del options "where") /\
    d_opt d = (assemble_opt opt values o').1.1 /\
    d_options d = (assemble_opt opt values o').1.2 /\
    d_alias d = (assemble_opt opt values o').2.
Proof.
  intros Hplan Hw.
  destruct (plan_send_inv _ _ _ _ _ _ Hplan) as (f & p & o' & c' & opt & _ & _ & Hroute & ->).
  destruct (route_selector_entered _ _ _ _ _ _ (truthy_where_options _ Hw) Hw Hroute)
    as (p1 & o1 & c1 & Hrv & Hwhere & _ & _ & Ho1 & _); [done|].
  destruct (truthy_get_is_object options "where") as [ofs ->]; [done|done|].
  assert (Hobj1 : is_plain_object o1 = true).
  { rewrite Ho1. by case_match. }
  exists o1, o', opt. split; [done|]. simpl. unfold route_verb in Hrv.
  destruct (is_str (get (get (r_config self) "methods") mn) "get").
  - destruct (copy_pagination _ _) as [e|query]; [done|]. simplify_eq.
    split; [|split; [split; [done|]|done]].
    + unfold share. repeat case_match; done.
    + destruct (has c1 "query"); [|done]. by rewrite get_share_ne.
  - rewrite Hwhere in Hrv.
    destruct (0 <? size_of (stripped_selector (VObj ofs)))%nat eqn:Hsize; simplify_eq.
    + done.
    + split; [|split; [split; [done|]|done]].
      * by destruct (to_boolean (get (get_field "where" ofs) "id")).
      * destruct (to_boolean (get (get_field "where" ofs) "id")); [|done].
        simpl. by rewrite delete_set_field.
Qed.


(** C10, amended.  A call that is sent returns with the options object of
    the caller changed in place.  With a truthy selector (and values that
    have no [where] of their own): a truthy id is gone from the selector;
    with the verb [get] the selector stays in the options, stripped of the
    id, even when nothing is left in it; with another verb a selector in
    which nothing is left is deleted from the options.  With a verb other
    than [get], truthy options and truthy values, and no selector or nothing
    left in it, the values are merged into the options object, and that very
    object is the body of the request. *)
Theorem request_edits_the_callers_options fuel self cn mn k options values d st :
  plan_request self cn mn options values = inr (Send d) ->
  (exists st',
      request (S (S fuel)) self cn mn (CbUser k) options values st = Ret (d_options d) st') /\
  (to_boolean (get options "where") = true ->
   has_field "where" (own_entries values) = false ->
   (to_boolean (get (get options "where") "id") = true ->
    has (get (d_options d) "where") "id" = false) /\
   (is_str (d_restMethod d) "get" = true ->
    get (d_options d) "where" = stripped_selector options) /\
   (is_str (d_restMethod d) "get" = false ->
    size_of (stripped_selector options) = 0%nat ->
    has (d_options d) "where" = false)) /\
  (is_str (d_restMethod d) "get" = false ->
   to_boolean options = true ->
   to_boolean values = true ->
   to_boolean (get options "where") = false \/ size_of (stripped_selector options) = 0%nat ->
   d_options d = extend (if to_boolean (get options "where") then del options "where" else options)
                        values /\
   d_opt d = d_options d /\
   d_alias d = Some TheOptions).
Proof.
  intros Hplan. split; [|split].
  - rewrite (request_send _ _ _ _ _ _ _ d) by done. by eexists.
  - intros Hw Hvals.
    destruct (send_options_inv _ _ _ _ _ _ Hplan Hw)
      as (o1 & o' & opt & Ho1 & Hobj & Hverb & Hopt & Hoptions & Halias).
    assert (Hkeep : forall o, is_plain_object o = true ->
                      get (assemble_opt VUndef values o).1.2 "where" = get o "where").
    { intros o Ho. unfold assemble_opt. simpl. destruct (to_boolean values); [|done].
      destruct o; try done. simpl. by apply get_fold_set_field. }
    destruct (is_str (d_restMethod d) "get").
    + destruct Hverb as [-> Hwhere]. rewrite Hoptions, Hkeep, Hwhere by done.
      split; [|done]. apply stripped_selector_has_no_id.
    + split; [|split; [done|]].
      * intros Hid. destruct (0 <? size_of (stripped_selector options))%nat eqn:Hsize.
        -- destruct Hverb as [-> ->]. rewrite Hoptions. unfold assemble_opt.
           apply Nat.ltb_lt, positive_size_truthy in Hsize. rewrite Hsize. simpl.
           rewrite Ho1, Hid, stripped_of_set by done. apply has_del.
        -- destruct Hverb as [-> ->]. rewrite Hoptions, Hkeep by done.
           by rewrite get_del_eq.
      * intros _ Hsize. rewrite (size_zero_not_positive _ Hsize) in Hverb.
        destruct Hverb as [-> ->]. rewrite Hoptions. unfold assemble_opt.
        cbn [to_boolean negb andb]. destruct (to_boolean values); cbn [fst snd].
        -- destruct (to_boolean (del options "where")); cbn [fst snd]; [|apply has_del].
           rewrite has_extend by done. by rewrite has_del, Hvals.
        -- apply has_del.
  - intros Hget Ho Hv Hcase.
    destruct (to_boolean (get options "where")) eqn:Hw.
    + destruct Hcase as [|Hsize]; [done|].
      destruct (send_options_inv _ _ _ _ _ _ Hplan Hw)
        as (o1 & o' & opt & Ho1 & Hobj & Hverb & Hopt & Hoptions & Halias).
      rewrite Hget, (size_zero_not_positive _ Hsize) in Hverb. destruct Hverb as [-> ->].
      rewrite Hopt, Hoptions, Halias. unfold assemble_opt. rewrite Hv. simpl.
      by destruct (del options "where").
    + destruct (plan_send_inv _ _ _ _ _ _ Hplan) as (f & p & o' & c' & opt & _ & _ & Hroute & ->).
      unfold route_selector in Hroute. rewrite Hw, andb_false_r in Hroute. simplify_eq.
      simpl. unfold assemble_opt. by rewrite Hv, Ho.
Qed.


(** ** The id of a single record *)

Lemma has_share_ne v k k' x : k <> k' -> has (share v k' x) k = has v k.
Proof. intros Hne. unfold share. destruct (has v k'); [by apply has_set_ne|done]. Qed.

Lemma copy_key_has options q q' key k :
  k <> key -> copy_key options (inr q) key = inr q' -> has q' k = has q k.
Proof.
  intros Hne. unfold copy_key. destruct (is_undef _); [by intros [= <-]|].
  destruct (nullish q); [done|]. intros [= <-]. by apply has_set_ne.
Qed.

Lemma copy_key_inr options acc key q' :
  copy_key options acc key = inr q' -> exists q, acc = inr q.
Proof. destruct acc; [done|by eexists]. Qed.

(** The pagination round adds no other key. *)
Lemma copy_pagination_has options q q' k :
  ~ In k pagination_keys -> copy_pagination options q = inr q' -> has q' k = has q k.
Proof.
  unfold copy_pagination, pagination_keys. cbn [fold_left In]. intros Hk Hc.
  destruct (copy_key_inr _ _ _ _ Hc) as [q2 H2]. rewrite H2 in Hc.
  destruct (copy_key_inr _ _ _ _ H2) as [q1 H1]. rewrite H1 in H2.
  rewrite (copy_key_has options q2 q' "offset" k) by naive_solver.
  rewrite (copy_key_has options q1 q2 "limit" k) by naive_solver.
  by rewrite (copy_key_has options q q1 "skip" k) by naive_solver.
Qed.

Lemma has_extend_any dest src k :
  has_field k (own_entries src) = false -> has (extend dest src) k = has dest k.
Proof.
  intros Hk. destruct dest; try done. simpl. by rewrite has_fold_set_field, Hk, orb_false_r.
Qed.

Lemma has_assembled opt values o :
  has (assemble_opt opt values o).1.1 "id" = true ->
  has opt "id" = true \/ has o "id" = true \/ has_field "id" (own_entries values) = true.
Proof.
  unfold assemble_opt. destruct (negb (to_boolean opt) && to_boolean values); [|by left].
  destruct (to_boolean o); cbn [fst].
  - destruct o; try done. simpl. rewrite has_fold_set_field. intros [?|?]%orb_true_iff; auto.
  - intros Hv. right; right. by destruct values.
Qed.

(** X19.  For a call that is sent and whose selector has a truthy
    id: the pathname of the request is the pathname computed for the
    resource followed by ["/"] and the id; the id is taken out of the
    selector before the selector is placed; the query parameters have an
    [id] exactly when the configured query has one; and the body has an [id]
    only if the options themselves or the values have one. *)
Theorem truthy_id_is_a_path_segment self cn mn options values d :
  plan_request self cn mn options values = inr (Send d) ->
  to_boolean (get (get options "where") "id") = true ->
  (exists f,
      get (configured self cn options) "getPathname" = VFun f /\
      get (d_config d) "pathname"
      = VStr (to_string (apply_fn f [configured self cn options; d_restMethod d; values; options])
              ++ "/" ++ to_string (get (get options "where") "id"))) /\
  has (stripped_selector options) "id" = false /\
  has (get (d_config d) "query") "id" = has (get (configured self cn options) "query") "id" /\
  (has (d_opt d) "id" = true ->
   has options "id" = true \/ has_field "id" (own_entries values) = true).
Proof.
  intros Hplan Hid.
  assert (Hw : to_boolean (get options "where") = true).
  { destruct (truthy_get_is_object _ _ Hid) as [fs Hfs]; [done|].
    by rewrite Hfs. }
  destruct (plan_send_inv _ _ _ _ _ _ Hplan) as (f & p & o' & c' & opt & _ & Hgp & Hroute & ->).
  destruct (route_selector_entered _ _ _ _ _ _ (truthy_where_options _ Hw) Hw Hroute)
    as (p1 & o1 & c1 & Hrv & Hwhere & Hsame & Hp1 & Ho1 & Hc1); [done|].
  rewrite Hid in Hp1, Ho1, Hc1. cbn [d_config d_restMethod d_opt].
  pose proof (stripped_selector_has_no_id _ Hid) as Hstrip.
  assert (Hcfg : is_plain_object (configured self cn options) = true).
  { destruct (configured self cn options); done. }
  assert (Hobj1 : is_plain_object c1 = true) by (by rewrite Hc1, share_object).
  assert (Hid1 : has o1 "id" = has options "id") by (rewrite Ho1; by apply has_set_ne).
  destruct (Hsame "query") as [_ Hq]; [done|].
  clear Hc1 Ho1 Hsame.
  rewrite (get_set_ne _ "query" "pathname") by done.
  unfold route_verb in Hrv. rewrite Hwhere in Hrv.
  destruct (is_str (get (get (r_config self) "methods") mn) "get").
  - destruct (copy_pagination _ _) as [e|query] eqn:Hcopy; [done|]. simplify_eq.
    split; [|split; [done|split]].
    + exists f. split; [done|]. apply get_set_eq. by rewrite share_object.
    + apply (copy_pagination_has _ _ _ "id") in Hcopy; cycle 1.
      { unfold pagination_keys. simpl. intros [?|[?|[?|[]]]]; done. }
      unfold js_or in Hcopy.
      assert (Hs : to_boolean (stripped_selector options) = true).
      { unfold stripped_selector. rewrite Hid.
        destruct (truthy_get_is_object _ _ Hid) as [fs ->]; done. }
      rewrite Hs, has_extend_any in Hcopy; cycle 1.
      { unfold stripped_selector in *. rewrite Hid in *.
        destruct (truthy_get_is_object _ _ Hid) as [fs Hfs]; [done|].
        rewrite Hfs in *. exact Hstrip. }
      unfold share at 1. destruct (has c1 "query") eqn:Hhas.
      * rewrite get_set_eq by done. by rewrite Hcopy, Hq.
      * by rewrite Hq.
    + intros Hb. apply has_assembled in Hb as [Hb|[Hb|Hb]]; [done| |by right].
      left. rewrite <- Hid1. destruct (has c1 "query"); [|done].
      by rewrite has_share_ne in Hb.
  - destruct (0 <? size_of (stripped_selector options))%nat eqn:Hsize; simplify_eq.
    + split; [|split; [done|split; [by rewrite Hq|]]].
      * exists f. split; [done|]. by apply get_set_eq.
      * intros Hb. apply has_assembled in Hb as [Hb|[Hb|Hb]]; [|left|by right].
        -- by rewrite Hstrip in Hb.
        -- by rewrite <- Hid1.
    + split; [|split; [done|split; [by rewrite Hq|]]].
      * exists f. split; [done|]. by apply get_set_eq.
      * intros Hb. apply has_assembled in Hb as [Hb|[Hb|Hb]]; [done|left|by right].
        rewrite has_del_ne in Hb by done. by rewrite <- Hid1.
Qed.

(** ** Fan-out *)

Lemma plan_enumerates self cn mn options values :
  mn = "update" \/ mn = "destroy" ->
  well_configured self cn mn options ->
  to_boolean (get options "where") = true ->
  to_boolean (get (get options "where") "id") = false ->
  plan_request self cn mn options values = inr Enumerate.
Proof.
  intros Hmn (Hcfg & Hmethods & Hverb & Hgp) Hw Hid.
  unfold plan_request. rewrite Hcfg, Hmethods, Hverb. simpl. fold (configured self cn options).
  destruct (get (configured self cn options) "getPathname"); try done.
  unfold route_selector. rewrite (truthy_where_options _ Hw), Hw, Hid. simpl.
  by destruct Hmn as [-> | ->].
Qed.

Lemma request_send_mutation fuel self cn mn callback options values d st :
  plan_request self cn mn options values = inr (Send d) ->
  String.eqb mn "find" = false ->
  request (S fuel) self cn mn callback options values st
  = Ret (d_options d) (record [EvHttp (http_of self cn mn callback d)] st).
Proof. intros Hplan Hfind. simpl. rewrite Hplan, Hfind. reflexivity. Qed.

Lemma copy_pagination_none options q :
  (forall key, In key pagination_keys -> get options key = VUndef) ->
  copy_pagination options q = inr q.
Proof.
  intros Hnone. unfold copy_pagination, pagination_keys, copy_key in *. simpl.
  rewrite !Hnone by (simpl; auto). done.
Qed.

Lemma get_override_config config options k :
  has options k = false -> get (override_config config options) k = get config k.
Proof.
  intros Hk. unfold override_config. destruct (_ && _); [|done].
  destruct config as [| | | | | |fs|]; try done. simpl.
  induction fs as [|[k' v'] fs IH]; simpl; [done|].
  destruct (String.eqb k k') eqn:E; [|done].
  apply String.eqb_eq in E as <-. by rewrite Hk.
Qed.

(** The request made for one matched record: it is sent, to the pathname
    of the resource followed by the id of the record. *)
Lemma sub_request_is_sent self cn mn values id f :
  mn = "update" \/ mn = "destroy" ->
  nullish (r_config self) = false ->
  nullish (get (r_config self) "methods") = false ->
  client_has (r_client self) (get (get (r_config self) "methods") mn) = true ->
  get (r_config self) "getPathname" = VFun f ->
  to_boolean id = true ->
  exists d,
    plan_request self cn mn (sub_options id) values = inr (Send d) /\
    get (d_config d) "pathname"
    = VStr (to_string (apply_fn f [configured self cn (sub_options id);
                                   get (get (r_config self) "methods") mn;
                                   values; sub_options id])
            ++ "/" ++ to_string id).
Proof.
  intros Hmn Hcfg Hmethods Hverb Hgp Hid.
  unfold plan_request. rewrite Hcfg, Hmethods, Hverb. simpl.
  fold (configured self cn (sub_options id)).
  assert (Hgp' : get (configured self cn (sub_options id)) "getPathname" = VFun f).
  { unfold configured. rewrite get_resolve_resource by done.
    by rewrite get_override_config. }
  assert (Hobj : is_plain_object (configured self cn (sub_options id)) = true).
  { destruct (configured self cn (sub_options id)); done. }
  rewrite Hgp'. unfold route_selector. simpl. rewrite Hid. simpl.
  unfold route_verb.
  destruct (is_str (get (get (r_config self) "methods") mn) "get").
  - rewrite copy_pagination_none; cycle 1.
    { intros key Hin. simpl in Hin. by destruct Hin as [<-|[<-|[<-|[]]]]. }
    destruct (assemble_opt _ _ _) as [[opt o] a]. eexists. split; [reflexivity|].
    simpl. apply get_set_eq. by rewrite !share_object.
  - simpl. destruct (assemble_opt _ _ _) as [[opt o] a]. eexists. split; [reflexivity|].
    simpl. apply get_set_eq. by rewrite !share_object.
Qed.

Lemma record_nil st : record [] st = st.
Proof. destruct st. unfold record. simpl. by rewrite app_nil_r. Qed.

Lemma record_app es es' st : record es' (record es st) = record (es ++ es') st.
Proof. unfold record. simpl. by rewrite app_assoc. Qed.

Lemma is_last_index (i : nat) (all : list value) :
  is_last (VNum (Z.of_nat i)) (VArr all) = bool_decide (S i = List.length all).
Proof.
  unfold is_last. simpl. case_bool_decide.
  - apply Z.eqb_eq. lia.
  - apply Z.eqb_neq. lia.
Qed.

Lemma invoke_fan_out fuel self cn mn callback values results st :
  invoke (S fuel) self (CbFanOut cn mn callback values) None results st
  = each (per_record (request fuel self cn mn) callback values results) (entries results) st.
Proof. reflexivity. Qed.

Lemma fan_out_each fuel self cn mn callback values f (all rs : list value) (off : nat) st :
  mn = "update" \/ mn = "destroy" ->
  nullish (r_config self) = false ->
  nullish (get (r_config self) "methods") = false ->
  client_has (r_client self) (get (get (r_config self) "methods") mn) = true ->
  get (r_config self) "getPathname" = VFun f ->
  Forall (fun r => to_boolean (get r "id") = true) rs ->
  exists ds,
    Forall2 (fun r d =>
               plan_request self cn mn (sub_options (get r "id")) values = inr (Send d) /\
               get (d_config d) "pathname"
               = VStr (to_string (apply_fn f [configured self cn (sub_options (get r "id"));
                                              get (get (r_config self) "methods") mn;
                                              values; sub_options (get r "id")])
                       ++ "/" ++ to_string (get r "id"))) rs ds /\
    each (per_record (request (S fuel) self cn mn) callback values (VArr all))
         (imap (fun i x => (VNum (Z.of_nat (off + i)), x)) rs) st
    = Ret tt (record (imap (fun i d =>
                              EvHttp (http_of self cn mn
                                        (if bool_decide (S (off + i) = List.length all)
                                         then callback else CbNoop) d)) ds) st).
Proof.
  intros Hmn Hcfg Hmethods Hverb Hgp Hids. revert off st.
  induction Hids as [|r rs Hid _ IH]; intros off st.
  - exists []. split; [constructor|]. simpl. by rewrite record_nil.
  - destruct (sub_request_is_sent self cn mn values (get r "id") f) as (d & Hplan & Hpath);
      try done.
    destruct (IH (S off) (record [EvHttp (http_of self cn mn
                                     (if bool_decide (S off = List.length all)
                                      then callback else CbNoop) d)] st))
      as (ds & Hds & Heach).
    exists (d :: ds). split; [by constructor|].
    rewrite !imap_cons. cbn [each]. unfold bind at 1.
    unfold per_record at 1. cbn [fst snd].
    assert (Hr : nullish r = false).
    { destruct (truthy_get_is_object r "id") as [fs ->]; done. }
    rewrite Hr. unfold bind at 1.
    rewrite Nat.add_0_r, is_last_index.
    rewrite (request_send_mutation _ _ _ _ _ _ _ d); [|exact Hplan|by destruct Hmn as [-> | ->]].
    unfold ret at 1.
    rewrite (imap_ext _ (fun i x => (VNum (Z.of_nat (S off + i)), x))); cycle 1.
    { intros i x _. simpl. do 2 f_equal. lia. }
    rewrite Heach, record_app. do 2 f_equal. simpl. f_equal.
    apply imap_ext. intros i x _. simpl. by rewrite Nat.add_succ_r.
Qed.

Lemma fired_app k l l' : fired k (l ++ l') = (fired k l + fired k l')%nat.
Proof. unfold fired. by rewrite List.filter_app, length_app. Qed.

Lemma fired_callback k err r l : fired k (l ++ [EvCallback k err r]) = S (fired k l).
Proof. rewrite fired_app. unfold fired at 2. simpl. rewrite Nat.eqb_refl. simpl. lia. Qed.

Lemma fired_cache_set k uri r l : fired k (l ++ [EvCacheSet uri r]) = fired k l.
Proof. rewrite fired_app. unfold fired at 2. simpl. lia. Qed.

Lemma fired_cache_del k uri l : fired k (l ++ [EvCacheDel uri]) = fired k l.
Proof. rewrite fired_app. unfold fired at 2. simpl. lia. Qed.

(** A completion handler that returns has called its callback once: a
    function of the caller is recorded once, [_.noop] leaves no record. *)
Lemma complete_calls_back_once fuel self h err req res data st st' k :
  cb (S fuel) self h err req res data st = Ret tt st' ->
  (h_callback h = CbUser k -> fired k (st_trace st') = S (fired k (st_trace st))) /\
  (h_callback h = CbNoop -> fired k (st_trace st') = fired k (st_trace st)).
Proof.
  unfold cb, succeed, bind, lift, cache_set, cache_del. intros Hc.
  destruct (is_failure err res) as [e|[|]]; simpl in Hc; [done| |].
  - split; intros Hcb; rewrite Hcb in Hc; simpl in Hc; unfold emit, ret in Hc;
      simplify_eq; cbn [st_trace].
    + apply fired_callback.
    + done.
  - destruct (String.eqb (h_methodName h) "find").
    + destruct (getResultsAsCollection _ _ _) as [e|r]; simpl in Hc; [done|].
      destruct (st_cache st); simpl in Hc;
        (split; intros Hcb; rewrite Hcb in Hc; simpl in Hc; unfold emit, ret in Hc;
         simplify_eq; cbn [st_trace]; rewrite ?fired_callback, ?fired_cache_set; done).
    + destruct (formatResult _ _ _) as [e|r]; simpl in Hc; [done|].
      destruct (st_cache st); simpl in Hc;
        (split; intros Hcb; rewrite Hcb in Hc; simpl in Hc; unfold emit, ret in Hc;
         simplify_eq; cbn [st_trace]; rewrite ?fired_callback, ?fired_cache_del; done).
Qed.

(** C4, amended.  For [update] and [destroy] with a truthy selector that has
    no truthy id, in a configuration that passes the validation of the verb:
    [request] makes no request of its own, it is the call
    [self.find(collectionName, options, closure)] on the same options.  When
    that [find] fails, the closure calls the callback of the caller with the
    error.  When it succeeds with records that all have a truthy id, the
    closure sends one request per record, in order, each to the pathname
    ending in the id of its record, the last one carrying the callback of the
    caller and the others [_.noop]; sending them does not call the callback;
    with at least one record the last request exists, and its completion
    calls the callback exactly once while the completion of any other does
    not call it. *)
Theorem bulk_call_is_fanned_out fuel self cn mn k options values f (rs : list value) st :
  mn = "update" \/ mn = "destroy" ->
  well_configured self cn mn options ->
  get (r_config self) "getPathname" = VFun f ->
  to_boolean (get options "where") = true ->
  to_boolean (get (get options "where") "id") = false ->
  rs <> [] ->
  Forall (fun r => to_boolean (get r "id") = true) rs ->
  request (S fuel) self cn mn (CbUser k) options values st
  = find fuel self cn options (CbFanOut cn mn (CbUser k) values) st /\
  (forall e r,
      invoke (S (S fuel)) self (CbFanOut cn mn (CbUser k) values) (Some e) r st
      = Ret tt (record [EvCallback k (Some e) VUndef] st)) /\
  exists ds,
    Forall2 (fun r d =>
               plan_request self cn mn (sub_options (get r "id")) values = inr (Send d) /\
               get (d_config d) "pathname"
               = VStr (to_string (apply_fn f [configured self cn (sub_options (get r "id"));
                                              get (get (r_config self) "methods") mn;
                                              values; sub_options (get r "id")])
                       ++ "/" ++ to_string (get r "id"))) rs ds /\
    invoke (S (S fuel)) self (CbFanOut cn mn (CbUser k) values) None (VArr rs) st
    = Ret tt (record (imap (fun i d =>
                              EvHttp (http_of self cn mn
                                        (if bool_decide (S i = List.length rs)
                                         then CbUser k else CbNoop) d)) ds) st) /\
    fired k (st_trace (record (imap (fun i d =>
                              EvHttp (http_of self cn mn
                                        (if bool_decide (S i = List.length rs)
                                         then CbUser k else CbNoop) d)) ds) st))
    = fired k (st_trace st) /\
    (exists d, ds !! (List.length rs - 1)%nat = Some d) /\
    forall i d err req res data st1 st2,
      ds !! i = Some d ->
      cb (S fuel) self
               (c_cb (http_of self cn mn
                              (if bool_decide (S i = List.length rs) then CbUser k else CbNoop) d))
               err req res data st1 = Ret tt st2 ->
      fired k (st_trace st2)
      = (fired k (st_trace st1) + (if bool_decide (S i = List.length rs) then 1 else 0))%nat.
Proof.
  intros Hmn Hwell Hgp Hw Hid Hne Hids.
  split; [|split].
  - simpl. by rewrite plan_enumerates.
  - intros e r. reflexivity.
  - destruct Hwell as (Hcfg & Hmethods & Hverb & _).
    destruct (fan_out_each fuel self cn mn (CbUser k) values f rs rs 0 st)
      as (ds & Hds & Heach); try done.
    exists ds. split; [done|]. split; [|split; [|split]].
    + rewrite invoke_fan_out. exact Heach.
    + simpl. rewrite fired_app.
      assert (Hnone : forall (g : nat -> direct -> event) l,
                 (forall i d, is_callback_of k (g i d) = false) -> fired k (imap g l) = 0%nat).
      { intros g l. revert g. induction l as [|d l IH]; intros g Hg; [done|].
        rewrite imap_cons. unfold fired in *. simpl. rewrite Hg. apply IH.
        intros i d'. apply Hg. }
      rewrite Hnone by done. lia.
    + apply lookup_lt_is_Some_2. rewrite <- (Forall2_length _ _ _ Hds).
      destruct rs; [done|]. simpl. lia.
    + intros i d err req res data st1 st2 _ Hc.
      destruct (complete_calls_back_once _ _ _ _ _ _ _ _ _ k Hc) as [Huser Hnoop].
      case_bool_decide; simpl in *; [rewrite Huser by done|rewrite Hnoop by done]; lia.
Qed.


(** ** What throws and what does not *)

Lemma copy_key_total options q key :
  nullish q = false ->
  exists q', copy_key options (inr q) key = inr q' /\ nullish q' = false.
Proof.
  intros Hq. unfold copy_key. destruct (is_undef (get options key)); [by eexists|].
  rewrite Hq. eexists. split; [done|]. by destruct q.
Qed.

Lemma copy_pagination_total options q :
  nullish q = false -> exists q', copy_pagination options q = inr q'.
Proof.
  intros Hq. unfold copy_pagination, pagination_keys. cbn [fold_left].
  destruct (copy_key_total options q "skip" Hq) as (q1 & -> & Hq1).
  destruct (copy_key_total options q1 "limit" Hq1) as (q2 & -> & Hq2).
  destruct (copy_key_total options q2 "offset" Hq2) as (q3 & -> & _).
  by eexists.
Qed.

Lemma route_verb_total rm p o c :
  nullish (get c "query") = false -> exists r, route_verb rm p o c = inr r.
Proof.
  intros Hq. unfold route_verb. destruct (is_str rm "get").
  - destruct (copy_pagination_total o (extend (get c "query") (js_or (get o "where") (VObj []))))
      as [q' ->]; [by destruct (get c "query")|]. by eexists.
  - destruct (0 <? _)%nat; by eexists.
Qed.

Lemma route_selector_total mn rm p o c :
  nullish (get c "query") = false -> exists r, route_selector mn rm p o c = inr r.
Proof.
  intros Hq. unfold route_selector. destruct (_ && _); [|by eexists].
  destruct (to_boolean (get (get o "where") "id")).
  - apply route_verb_total. by rewrite get_share_ne.
  - destruct (_ || _); [by eexists|]. by apply route_verb_total.
Qed.

Lemma plan_request_total self cn mn options values :
  nullish (r_config self) = false ->
  nullish (get (r_config self) "methods") = false ->
  is_function (get (configured self cn options) "getPathname") = true ->
  nullish (get (configured self cn options) "query") = false ->
  exists p, plan_request self cn mn options values = inr p.
Proof.
  intros Hcfg Hmethods Hgp Hq. unfold plan_request. rewrite Hcfg, Hmethods.
  destruct (client_has _ _); [|by eexists]. simpl. fold (configured self cn options).
  destruct (get (configured self cn options) "getPathname") as [| | | | | | |f]; try done.
  destruct (route_selector_total mn (get (get (r_config self) "methods") mn)
              (apply_fn f [configured self cn options;
                           get (get (r_config self) "methods") mn; values; options])
              options (configured self cn options) Hq) as [[|p o c opt] ->]; [by eexists|].
  destruct (assemble_opt opt values o) as [[opt' o'] a]. by eexists.
Qed.

Lemma route_verb_not_fan_out rm p o c : route_verb rm p o c <> inr FanOut.
Proof.
  unfold route_verb. destruct (is_str rm "get").
  - by destruct (copy_pagination _ _).
  - by destruct (0 <? _)%nat.
Qed.

Lemma find_never_enumerates self cn options values :
  plan_request self cn "find" options values <> inr Enumerate.
Proof.
  unfold plan_request.
  destruct (nullish (r_config self)); [done|].
  destruct (nullish (get (r_config self) "methods")); [done|].
  destruct (client_has _ _); [|done]. cbn [negb].
  destruct (get (resolve_resource _ _) "getPathname"); try done.
  destruct (route_selector _ _ _ _ _) as [e|[|p o c opt]] eqn:Hroute; try done.
  - unfold route_selector in Hroute. destruct (_ && _); [|done].
    destruct (to_boolean (get (get options "where") "id"));
      by apply route_verb_not_fan_out in Hroute.
  - by destruct (assemble_opt opt values o) as [[? ?] ?].
Qed.

Lemma map_exn_total {A B} (f : A -> exn + B) (g : A -> B) l :
  (forall x, f x = inr (g x)) -> map_exn f l = inr (map g l).
Proof. intros Hf. induction l as [|x l IH]; simpl; [done|]. by rewrite Hf, IH. Qed.

(** C5, amended.  With a configuration that has a [methods] map: when the
    verb is valid and [getPathname] is not a function, [request] throws a
    [TypeError]; when [getPathname] is a function and the configured query is
    neither [null] nor [undefined] (and, for a call that is fanned out, the
    enumerating [find] is not served from the cache), [request] returns
    without throwing; the completion handler of a request that carries the
    callback of the caller or [_.noop] returns without throwing when the
    response is falsy or has a status code, the data of a [find] is neither
    [null] nor [undefined], and the collection is registered; and the
    completion handler of the enumerating [find] of a fanned-out call throws
    a [TypeError] when the first matched record is [null] or [undefined]. *)
Theorem failures_are_called_back_or_thrown fuel self cn mn k options values st :
  nullish (r_config self) = false ->
  nullish (get (r_config self) "methods") = false ->
  (client_has (r_client self) (get (get (r_config self) "methods") mn) = true ->
   is_function (get (configured self cn options) "getPathname") = false ->
   request (S fuel) self cn mn (CbUser k) options values st
   = Throw (TypeError "config.getPathname is not a function") st) /\
  (is_function (get (configured self cn options) "getPathname") = true ->
   nullish (get (configured self cn options) "query") = false ->
   (plan_request self cn mn options values = inr Enumerate ->
    forall d, plan_request self cn "find" options VUndef = inr (Send d) ->
              to_boolean (cached st (d_uri d)) = false) ->
   exists o st',
     request (S (S (S (S fuel)))) self cn mn (CbUser k) options values st = Ret o st') /\
  (forall h err req res data,
      h_callback h = CbUser k \/ h_callback h = CbNoop ->
      to_boolean res = false \/ nullish (get res "statusCode") = false ->
      (h_methodName h = "find" -> nullish data = false) ->
      is_Some (h_collection h) ->
      exists st', cb (S fuel) self h err req res data st = Ret tt st') /\
  (forall h cn' mn' values' c err req res data r rs,
      h_callback h = CbFanOut cn' mn' (CbUser k) values' ->
      h_methodName h = "find" ->
      h_collection h = Some c ->
      is_failure err res = inr false ->
      getResultsAsCollection data (Some c) (h_config h) = inr (VArr (r :: rs)) ->
      nullish r = true ->
      exists st',
        cb (S fuel) self h err req res data st = Throw (TypeError "result is undefined") st').
Proof.
  intros Hcfg Hmethods. split; [|split; [|split]].
  - intros Hverb Hgp. simpl. unfold plan_request. rewrite Hcfg, Hmethods, Hverb. simpl.
    fold (configured self cn options).
    by destruct (get (configured self cn options) "getPathname").
  - intros Hgp Hq Hmiss.
    destruct (plan_request_total self cn mn options values) as [[rm| |d] Hplan]; try done.
    + cbn [request]. rewrite Hplan. by eexists _, _.
    + cbn [request]. rewrite Hplan.
      destruct (plan_request_total self cn "find" options VUndef) as [[rm| |d] Hfind]; try done.
      * rewrite Hfind. by eexists _, _.
      * by apply find_never_enumerates in Hfind.
      * rewrite Hfind. unfold bind. simpl. unfold cache_get.
        rewrite (Hmiss Hplan d Hfind). by eexists _, _.
    + rewrite (request_send _ _ _ _ _ _ _ d) by done. by eexists _, _.
  - intros h err req res data Hcbs Hres Hdata [c Hc].
    assert (Hinv : forall e r st1, invoke (S fuel) self (h_callback h) e r st1
                                   = Ret tt (if h_callback h is CbNoop then st1
                                             else record [EvCallback k e r] st1)).
    { intros e r st1. by destruct Hcbs as [-> | ->]. }
    unfold cb, bind, lift.
    assert (Hf : exists b, is_failure err res = inr b).
    { unfold is_failure, responseErrorCode.
      destruct Hres as [-> | Hsc]; [by eexists|]. rewrite Hsc.
      destruct (to_boolean res); by eexists. }
    destruct Hf as [b ->]. cbn [ret]. destruct b.
    + rewrite Hinv. by eexists.
    + unfold succeed, bind, lift, cache_set, cache_del. rewrite Hc.
      destruct (String.eqb (h_methodName h) "find") eqn:Hfind.
      * apply String.eqb_eq in Hfind. unfold getResultsAsCollection, formatResults.
        rewrite (Hdata Hfind).
        rewrite (map_exn_total _ (fun result =>
                   call_hook (h_config h) "afterFormatResult"
                     (cast_run c (unserialize c (call_hook (h_config h) "beforeFormatResult" result)))))
          by done.
        cbn [ret]. destruct (st_cache st); rewrite Hinv; by eexists.
      * unfold formatResult. cbn [ret]. destruct (st_cache st); rewrite Hinv; by eexists.
  - intros h cn' mn' values' c err req res data r rs Hcb Hfind Hc Hok Hres Hr.
    unfold cb, bind. rewrite Hok. cbn [ret]. unfold succeed, bind, lift.
    rewrite Hfind, Hc. cbn [String.eqb Ascii.eqb Bool.eqb]. rewrite Hres, Hcb.
    unfold ret at 1 2. cbv beta iota.
    assert (Hset : exists st1, cache_set (h_uri h) (VArr (r :: rs)) st = Ret tt st1).
    { unfold cache_set. destruct (st_cache st); by eexists. }
    destruct Hset as [st1 ->]. rewrite invoke_fan_out. cbn [entries imap each].
    unfold bind, per_record. cbn [fst snd]. rewrite Hr. by eexists.
Qed.

End Properties.

(** ** Strings and own properties, continued *)

Lemma append_cons c p s : String c p ++ s = String c (p ++ s).
Proof. reflexivity. Qed.

Lemma append_empty s : "" ++ s = s.
Proof. reflexivity. Qed.

Lemma prefix_append p s : String.prefix p (p ++ s) = true.
Proof.
  induction p as [|c p IH]; rewrite ?append_cons, ?append_empty; simpl; [by destruct s|].
  destruct (ascii_dec c c); [done|congruence].
Qed.

Lemma prefix_split p s : String.prefix p s = true -> exists rest, s = p ++ rest.
Proof.
  revert s. induction p as [|c p IH]; intros s Hp; simpl in *.
  { by exists s. }
  destruct s as [|c' s]; [done|]. simpl in Hp.
  destruct (ascii_dec c c') as [<-|]; [|done].
  destruct (IH s Hp) as [rest ->]. by exists rest.
Qed.

Lemma substring_all s m : (String.length s <= m)%nat -> String.substring 0 m s = s.
Proof.
  revert m. induction s as [|c s IH]; intros m Hm; simpl in *; [by destruct m|].
  destruct m as [|m]; [lia|]. rewrite IH by lia. done.
Qed.

Lemma substring_append p s m :
  String.substring (String.length p) m (p ++ s) = String.substring 0 m s.
Proof. induction p as [|c p IH]; rewrite ?append_cons, ?append_empty; simpl; done. Qed.

Lemma length_append_ge p s : (String.length s <= String.length (p ++ s))%nat.
Proof. induction p as [|c p IH]; rewrite ?append_cons, ?append_empty; simpl; lia. Qed.

Lemma replace_first_prefix p r s : replace_first p r (p ++ s) = r ++ s.
Proof.
  assert (Hr : replace_first p r (p ++ s)
               = if String.prefix p (p ++ s)
                 then r ++ String.substring (String.length p) (String.length (p ++ s)) (p ++ s)
                 else match p ++ s with
                      | EmptyString => EmptyString
                      | String c rest => String c (replace_first p r rest)
                      end) by (by destruct (p ++ s)).
  rewrite Hr, prefix_append, substring_append, substring_all; [done|].
  apply length_append_ge.
Qed.

Lemma replace_first_absent p r s :
  (forall a b, s <> a ++ p ++ b) -> replace_first p r s = s.
Proof.
  induction s as [|c s IH]; intros Habs.
  - cbn [replace_first]. destruct (String.prefix p "") eqn:Hp; [|done].
    destruct (prefix_split _ _ Hp) as [rest Hr]. exfalso. apply (Habs "" rest). exact Hr.
  - cbn [replace_first]. destruct (String.prefix p (String c s)) eqn:Hp.
    + destruct (prefix_split _ _ Hp) as [rest Hr]. exfalso. apply (Habs "" rest). exact Hr.
    + rewrite IH; [done|]. intros a b ->. by apply (Habs (String c a) b).
Qed.

Lemma get_fold_set_field_in k es fs :
  NoDup (map fst es) -> has_field k es = true ->
  get_field k (fold_left (fun acc kv => set_field kv.1 kv.2 acc) es fs) = get_field k es.
Proof.
  revert fs. induction es as [|[k' v'] es IH]; intros fs Hnd Hk; simpl in *; [done|].
  apply NoDup_cons in Hnd as [Hnotin Hnd].
  destruct (String.eqb k k') eqn:E.
  - apply String.eqb_eq in E as <-. rewrite get_fold_set_field; [apply get_set_field_eq|].
    destruct (has_field k es) eqn:Hh; [|done]. exfalso. apply Hnotin.
    clear -Hh. induction es as [|[k2 v2] es IH]; simpl in *; [done|].
    destruct (String.eqb k k2) eqn:E; [apply String.eqb_eq in E as <-; left|right; auto].
  - by apply IH.
Qed.

(** ** Further properties of the pipeline, the cache and the results *)

Section Coverage.
Context `{Externals}.

Lemma getPathname_configured self cn options rm values o :
  is_plain_object (override_config (r_config self) options) = true ->
  getPathname (configured self cn options) rm values o
  = VStr (base_pathname (override_config (r_config self) options) cn).
Proof.
  intros Hobj. unfold getPathname, configured, base_pathname.
  rewrite !(get_resolve_resource _ _ "pathname"), !(get_resolve_resource _ _ "action") by done.
  unfold resolve_resource.
  destruct (to_boolean (get (override_config (r_config self) options) "resource")) eqn:Hres.
  - done.
  - rewrite get_set_eq by done. done.
Qed.

Lemma configured_object self cn options :
  is_plain_object (configured self cn options)
  = is_plain_object (override_config (r_config self) options).
Proof. unfold configured, resolve_resource. destruct (to_boolean _); [done|apply set_object]. Qed.

(** X1.  The pathname of a call that is sent, when the configuration keeps
    [Resource.getPathname]: the configured pathname, a slash, the resource
    name (the pluralized collection name when none is configured), the
    action when there is one, and the id of the selector when it is truthy;
    nothing else of the options or the values reaches the pathname. *)
Theorem pathname_of_a_sent_call self cn mn options values d :
  plan_request self cn mn options values = inr (Send d) ->
  get (configured self cn options) "getPathname" = VFun FnGetPathname ->
  get (d_config d) "pathname"
  = VStr (if to_boolean options && to_boolean (get options "where")
             && to_boolean (get (get options "where") "id")
          then base_pathname (override_config (r_config self) options) cn
               ++ "/" ++ to_string (get (get options "where") "id")
          else base_pathname (override_config (r_config self) options) cn).
Proof.
  intros Hplan Hgp.
  destruct (plan_send_inv _ _ _ _ _ _ Hplan) as (f & p & o' & c' & opt & _ & Hgp' & Hroute & ->).
  rewrite Hgp in Hgp'. injection Hgp' as <-. cbn [d_config].
  assert (Hobj : is_plain_object (configured self cn options) = true).
  { by destruct (configured self cn options). }
  cbn [apply_fn nth] in Hroute.
  rewrite getPathname_configured in Hroute by (by rewrite <- (configured_object self cn)).
  destruct (to_boolean options && to_boolean (get options "where")) eqn:Hblock.
  - apply andb_true_iff in Hblock as [Ho Hw].
    destruct (route_selector_entered _ _ _ _ _ _ Ho Hw Hroute)
      as (p1 & o1 & c1 & Hrv & _ & _ & Hp1 & _ & Hc1); [done|].
    assert (Hobj1 : is_plain_object c1 = true).
    { rewrite Hc1. destruct (to_boolean (get (get options "where") "id"));
        [by rewrite share_object|done]. }
    unfold route_verb in Hrv. cbn [andb].
    destruct (is_str _ "get").
    + destruct (copy_pagination _ _); [done|]. simplify_eq.
      rewrite get_set_eq by (by rewrite share_object).
      by destruct (to_boolean (get (get options "where") "id")).
    + destruct (0 <? _)%nat; simplify_eq; rewrite get_set_eq by done;
        by destruct (to_boolean (get (get options "where") "id")).
  - unfold route_selector in Hroute. rewrite Hblock in Hroute. simplify_eq.
    by rewrite get_set_eq.
Qed.

Lemma override_config_fields fs options :
  is_plain_object options = true ->
  override_config (VObj fs) options
  = VObj (map (fun kv => (kv.1, if has options kv.1 then get options kv.1 else kv.2)) fs).
Proof. intros Ho. unfold override_config. rewrite Ho. by destruct options. Qed.

Lemma get_override_config_plain config options k :
  is_plain_object options = true -> has config k = true ->
  get (override_config config options) k
  = if has options k then get options k else get config k.
Proof.
  intros Ho Hk. destruct config as [| | | | | |fs|]; try done.
  rewrite override_config_fields by done. simpl in *.
  induction fs as [|[k' v'] fs IH]; simpl in *; [done|].
  destruct (String.eqb k k') eqn:E; simpl in *.
  - by apply String.eqb_eq in E as <-.
  - by apply IH.
Qed.

(** X2.  Overriding the configuration from the options never adds a key and
    keeps the order of the keys: a key of the configuration that plain-object
    options have as an own property takes the options' value, every other
    key keeps its value, and options that are not a plain object change
    nothing. *)
Theorem options_override_configured_keys_only config options :
  map fst (own_entries (override_config config options)) = map fst (own_entries config) /\
  (forall k, has (override_config config options) k = has config k) /\
  (forall k, is_plain_object options = true -> has config k = true ->
             get (override_config config options) k
             = if has options k then get options k else get config k) /\
  (is_plain_object options = false -> override_config config options = config).
Proof.
  assert (Hkeys : forall fs, map fst (map (fun kv : string * value =>
             (kv.1, if has options kv.1 then get options kv.1 else kv.2)) fs) = map fst fs).
  { intros fs. rewrite map_map. by apply map_ext. }
  repeat split.
  - unfold override_config. destruct (_ && _); [|done].
    destruct config; try done. simpl. apply Hkeys.
  - intros k. unfold override_config. destruct (_ && _); [|done].
    destruct config as [| | | | | |fs|]; try done. simpl.
    induction fs as [|[k' v'] fs IH]; simpl; [done|]. by rewrite IH.
  - intros k Ho Hk. by apply get_override_config_plain.
  - intros Ho. unfold override_config. by rewrite Ho, andb_false_r.
Qed.



Lemma copy_pagination_get_other options fs fs' k :
  ~ In k pagination_keys \/ get options k = VUndef ->
  copy_pagination options (VObj fs) = inr (VObj fs') ->
  get_field k fs' = get_field k fs.
Proof.
  unfold copy_pagination, pagination_keys. cbn [fold_left In]. rewrite !copy_key_object.
  intros Hk [= <-].
  assert (Hstep : forall key l,
             In key ["skip"; "limit"; "offset"] ->
             get_field k (if is_undef (get options key) then l
                          else set_field key (get options key) l)
             = get_field k l).
  { intros key l Hin. destruct (is_undef (get options key)) eqn:Hu; [done|].
    apply get_set_field_ne. intros ->. destruct Hk as [Hk|Hk]; [done|].
    by rewrite Hk in Hu. }
  rewrite !Hstep; simpl; auto.
Qed.

(** X4.  On a [get] that is sent, the selector left after the id has been
    taken out is merged over the configured query: a key of the selector has
    the selector's value in the query parameters, every other key has the
    configured value (for a key that is not one of [skip], [limit], [offset]
    defined in the options). *)
Theorem selector_becomes_the_query self cn mn options values d wfs qfs :
  plan_request self cn mn options values = inr (Send d) ->
  is_str (d_restMethod d) "get" = true ->
  stripped_selector options = VObj wfs ->
  NoDup (map fst wfs) ->
  get (configured self cn options) "query" = VObj qfs ->
  forall k,
    ~ In k pagination_keys \/ get options k = VUndef ->
    get (get (d_config d) "query") k
    = if has_field k wfs then get_field k wfs else get_field k qfs.
Proof.
  intros Hplan Hverb Hstrip Hnd Hquery k Hk.
  assert (Hw : to_boolean (get options "where") = true).
  { unfold stripped_selector in Hstrip.
    destruct (to_boolean (get (get options "where") "id")); destruct (get options "where"); done. }
  destruct (plan_send_inv _ _ _ _ _ _ Hplan) as (f & p & o' & c' & opt & _ & _ & Hroute & ->).
  destruct (route_selector_entered _ _ _ _ _ _ (truthy_where_options _ Hw) Hw Hroute)
    as (p1 & o1 & c1 & Hrv & Hwhere & Hsame & _); [done|].
  cbn [d_config d_restMethod] in *. rewrite (get_set_ne _ "query" "pathname") by done.
  destruct (Hsame "query") as [_ Hq]; [done|]. rewrite Hquery in Hq.
  assert (Hko : get o1 k = get options k \/ k = "where").
  { destruct (String.eqb k "where") eqn:E; [right; by apply String.eqb_eq|].
    left. apply Hsame. by apply String.eqb_neq. }
  unfold route_verb in Hrv. rewrite Hverb, Hwhere, Hstrip, Hq in Hrv.
  unfold js_or in Hrv. cbn [to_boolean extend own_entries] in Hrv.
  destruct (copy_pagination _ _) as [e|query] eqn:Hcopy; [done|]. simplify_eq.
  assert (Hhas : has c1 "query" = true).
  { destruct c1 as [| | | | | |cfs|]; try done. simpl in *.
    destruct (has_field "query" cfs) eqn:Hh; [done|]. by rewrite (has_field_get _ _ Hh) in Hq. }
  unfold share. rewrite Hhas. rewrite get_set_eq by (by destruct c1).
  destruct (copy_pagination_object o1 (fold_left (fun acc kv => set_field kv.1 kv.2 acc) wfs qfs))
    as (fs' & Hcp & _).
  rewrite Hcp in Hcopy. simplify_eq. cbn [get].
  erewrite (copy_pagination_get_other o1 _ fs' k); [| |exact Hcp].
  - destruct (has_field k wfs) eqn:Hin.
    + by apply get_fold_set_field_in.
    + by apply get_fold_set_field.
  - destruct Hk as [Hk|Hk]; [by left|]. destruct Hko as [Hko| ->]; [right; congruence|].
    left. unfold pagination_keys. simpl. intros [?|[?|[?|[]]]]; done.
Qed.

(** X5.  A [get] that is sent never has the selector as its body, and
    without values it has no body at all. *)
Theorem get_never_sends_the_selector self cn mn options values d :
  plan_request self cn mn options values = inr (Send d) ->
  is_str (d_restMethod d) "get" = true ->
  d_alias d <> Some TheWhere /\
  (to_boolean values = false ->
   d_opt d = VUndef /\ forall callback, c_body (http_of self cn mn callback d) = None).
Proof.
  intros Hplan Hverb.
  destruct (plan_send_inv _ _ _ _ _ _ Hplan) as (f & p & o' & c' & opt & _ & _ & Hroute & ->).
  cbn [d_restMethod d_alias d_opt http_of c_body] in *.
  assert (Hopt : opt = VUndef).
  { unfold route_selector, route_verb in Hroute. rewrite Hverb in Hroute.
    repeat match type of Hroute with
           | context [if ?b then _ else _] => destruct b
           | context [match ?x with inl _ => _ | inr _ => _ end] => destruct x
           end; by simplify_eq. }
  subst opt. unfold assemble_opt. cbn [to_boolean negb andb]. split.
  - destruct (to_boolean values); [by destruct (to_boolean o')|done].
  - by intros ->.
Qed.

(** X6.  The call that [request] hands to the client, when the call is sent
    and not answered from the cache: its URI is the formatted configuration,
    and its path is that URI with the first occurrence of the client's base
    address replaced by a slash.  A URI that starts with the base address
    gives a slash and the rest; a URI that does not contain the base address
    is handed over whole. *)
Theorem path_is_relative_to_the_client fuel self cn mn k options values d st :
  plan_request self cn mn options values = inr (Send d) ->
  to_boolean (if String.eqb mn "find" then cached st (d_uri d) else VUndef) = false ->
  exists c,
    request (S (S fuel)) self cn mn (CbUser k) options values st
    = Ret (d_options d) (record [EvHttp c] st) /\
    d_uri d = url_format (d_config d) /\
    (forall rest, d_uri d = client_href (r_client self) ++ rest -> c_path c = "/" ++ rest) /\
    ((forall a b, d_uri d <> a ++ client_href (r_client self) ++ b) -> c_path c = d_uri d).
Proof.
  intros Hplan Hmiss. exists (http_of self cn mn (CbUser k) d). split.
  { rewrite (request_send _ _ _ _ _ _ _ d) by done. cbv zeta. by rewrite Hmiss. }
  destruct (plan_send_inv _ _ _ _ _ _ Hplan) as (f & p & o' & c' & opt & _ & _ & _ & ->).
  cbn [http_of c_path d_uri d_path d_config]. split; [done|]. split.
  - intros rest ->. apply replace_first_prefix.
  - apply replace_first_absent.
Qed.

(** X7.  [create] is always a single request (it has no options, so no
    selector): the values, when truthy, are the body as given, and the
    pathname is what [getPathname] returns on the resource's configuration;
    falsy values give a request without a body. *)
Theorem create_sends_the_values fuel self cn k values f st :
  nullish (r_config self) = false ->
  nullish (get (r_config self) "methods") = false ->
  client_has (r_client self) (get (get (r_config self) "methods") "create") = true ->
  get (resolve_resource (r_config self) cn) "getPathname" = VFun f ->
  exists d,
    create (S fuel) self cn values (CbUser k) st
    = Ret VNull (record [EvHttp (http_of self cn "create" (CbUser k) d)] st) /\
    c_body (http_of self cn "create" (CbUser k) d)
    = (if to_boolean values then Some values else None) /\
    d_alias d = (if to_boolean values then Some TheValues else None) /\
    d_config d = set (resolve_resource (r_config self) cn) "pathname"
                     (apply_fn f [resolve_resource (r_config self) cn;
                                  get (get (r_config self) "methods") "create";
                                  values; VNull]).
Proof.
  intros Hcfg Hmethods Hverb Hgp.
  assert (Hplan : exists d,
             plan_request self cn "create" VNull values = inr (Send d) /\
             d_opt d = (if to_boolean values then values else VUndef) /\
             d_options d = VNull /\
             d_alias d = (if to_boolean values then Some TheValues else None) /\
             d_config d = set (resolve_resource (r_config self) cn) "pathname"
                     (apply_fn f [resolve_resource (r_config self) cn;
                                  get (get (r_config self) "methods") "create";
                                  values; VNull])).
  { unfold plan_request. rewrite Hcfg, Hmethods, Hverb. cbn [negb].
    unfold override_config. cbn [to_boolean andb]. rewrite Hgp.
    unfold route_selector. cbn [to_boolean andb]. unfold assemble_opt. cbn [to_boolean negb andb].
    destruct (to_boolean values); eexists; repeat split. }
  destruct Hplan as (d & Hplan & Hopt & Hopts & Halias & Hc).
  exists d. split; [|split; [|split]]; try done.
  - unfold create. rewrite (request_send_mutation _ _ _ _ _ _ _ d) by done. by rewrite Hopts.
  - cbn [http_of c_body]. rewrite Hopt. destruct (to_boolean values) eqn:Hv; [by rewrite Hv|done].
Qed.

Lemma only_adds_calls_refl st : only_adds_calls st st.
Proof. split; [done|]. exists []. by rewrite app_nil_r. Qed.

Lemma only_adds_calls_trans st1 st2 st3 :
  only_adds_calls st1 st2 -> only_adds_calls st2 st3 -> only_adds_calls st1 st3.
Proof.
  intros [Hc1 (es1 & Ht1 & He1)] [Hc2 (es2 & Ht2 & He2)]. split; [congruence|].
  exists (es1 ++ es2)%list. split.
  - by rewrite Ht2, Ht1, app_assoc.
  - by rewrite forallb_app, He1, He2.
Qed.

Lemma keeps_to_calls_bind {A B} (m : M A) (f : A -> M B) st :
  keeps_to_calls st (m st) ->
  (forall a st1, keeps_to_calls st1 (f a st1)) ->
  keeps_to_calls st (bind m f st).
Proof.
  unfold bind. intros Hm Hf. destruct (m st) as [a st1|e st1|]; simpl in *; [|done|done].
  specialize (Hf a st1). destruct (f a st1); simpl in *; try done;
    by eapply only_adds_calls_trans.
Qed.

Lemma keeps_to_calls_emit e st :
  is_cache_event e = false -> keeps_to_calls st (emit e st).
Proof.
  intros He. simpl. split; [done|]. exists [e]. split; [done|]. simpl. by rewrite He.
Qed.

Lemma keeps_to_calls_each {A} (f : A -> M unit) l st :
  (forall x st1, keeps_to_calls st1 (f x st1)) -> keeps_to_calls st (each f l st).
Proof.
  intros Hf. revert st. induction l as [|x l IH]; intros st; simpl.
  - apply only_adds_calls_refl.
  - apply keeps_to_calls_bind; [apply Hf|]. intros _ st1. apply IH.
Qed.

Lemma request_invoke_keep_to_calls fuel :
  (forall self cn mn callback options values st,
      keeps_to_calls st (request fuel self cn mn callback options values st)) /\
  (forall self called err results st,
      keeps_to_calls st (invoke fuel self called err results st)).
Proof.
  induction fuel as [|fuel [IHr IHi]]; [by split|]. split.
  - intros self cn mn callback options values st. cbn [request].
    destruct (plan_request self cn mn options values) as [e|[rm| |d]].
    + apply only_adds_calls_refl.
    + apply keeps_to_calls_bind; [apply IHi|]. intros _ st1. apply only_adds_calls_refl.
    + apply IHr.
    + apply keeps_to_calls_bind.
      * destruct (String.eqb mn "find"); apply only_adds_calls_refl.
      * intros r st1. destruct (to_boolean r).
        -- apply keeps_to_calls_bind; [apply IHi|]. intros _ st2. apply only_adds_calls_refl.
        -- apply keeps_to_calls_bind; [by apply keeps_to_calls_emit|].
           intros _ st2. apply only_adds_calls_refl.
  - intros self called err results st. cbn [invoke].
    destruct called as [k| |cn mn callback values].
    + by apply keeps_to_calls_emit.
    + apply only_adds_calls_refl.
    + destruct err as [e|]; [apply IHi|].
      apply keeps_to_calls_each. intros ir st1. unfold per_record.
      destruct (nullish ir.2); [apply only_adds_calls_refl|].
      apply keeps_to_calls_bind; [apply IHr|]. intros _ st2. apply only_adds_calls_refl.
Qed.

(** X8.  [request] itself never writes to the cache: whatever it is called
    with, when it returns the cache is as it was and the events it has added
    are calls of the client and of callbacks.  Only completion handlers write
    to the cache. *)
Theorem request_only_reads_the_cache fuel self cn mn callback options values st o st' :
  request fuel self cn mn callback options values st = Ret o st' ->
  st_cache st' = st_cache st /\
  exists es : list event, st_trace st' = (st_trace st ++ es)%list /\
             forallb (fun e => negb (is_cache_event e)) es = true.
Proof.
  intros Hr. pose proof (proj1 (request_invoke_keep_to_calls fuel)
                           self cn mn callback options values st) as Hk.
  by rewrite Hr in Hk.
Qed.

Lemma call_hook_absent config name x :
  is_function (get config name) = false -> call_hook config name x = x.
Proof. unfold call_hook. by destruct (get config name). Qed.

Lemma formatResults_registered results c config :
  formatResults results (Some c) config
  = inr (call_hook config "afterFormatResults"
           (VArr (map (format_one c config)
                      (elements_of (call_hook config "beforeFormatResults" results))))).
Proof.
  unfold formatResults. by rewrite (map_exn_total _ (format_one c config)).
Qed.

(** X9.  [getResultsAsCollection], with no hooks on the whole list: the
    records are the array [data.objects], else the array [data.results], else
    [data] itself when it is an array, else the one record [data]; the order
    is kept, and each record is formatted as [formatResult] does: it is given
    to the function [config.beforeFormatResult] when that is a function, then
    to the transformer and the cast of the collection, then to the function
    [config.afterFormatResult] when that is a function. *)
Theorem results_are_read_from_the_body data c config :
  nullish data = false ->
  is_function (get config "beforeFormatResults") = false ->
  is_function (get config "afterFormatResults") = false ->
  let hook name x := match get config name with
                      | VFun f => apply_fn f [x]
                      | _ => x
                      end in
  let format r :=
    hook "afterFormatResult" (cast_run c (unserialize c (hook "beforeFormatResult" r))) in
  (forall xs, get data "objects" = VArr xs ->
     getResultsAsCollection data (Some c) config = inr (VArr (map format xs))) /\
  (forall ys, to_boolean (get data "objects") = false -> get data "results" = VArr ys ->
     getResultsAsCollection data (Some c) config = inr (VArr (map format ys))) /\
  (forall zs, data = VArr zs ->
     getResultsAsCollection data (Some c) config = inr (VArr (map format zs))) /\
  (to_boolean (get data "objects") = false -> to_boolean (get data "results") = false ->
   is_array data = false ->
     getResultsAsCollection data (Some c) config = inr (VArr [format data])).
Proof.
  intros Hdata Hb Ha hook format.
  change format with (format_one c config). clear hook format.
  assert (Hg : getResultsAsCollection data (Some c) config
               = inr (VArr (map (format_one c config)
                   (elements_of (if is_array
                      (js_or (get data "objects") (js_or (get data "results") data))
                      then js_or (get data "objects") (js_or (get data "results") data)
                      else VArr [js_or (get data "objects")
                                       (js_or (get data "results") data)]))))).
  { unfold getResultsAsCollection. rewrite Hdata, formatResults_registered.
    by rewrite !call_hook_absent. }
  unfold js_or in Hg. repeat split.
  - intros xs Hx. by rewrite Hg, Hx.
  - intros ys Ho Hy. by rewrite Hg, Ho, Hy.
  - intros zs ->. by rewrite Hg.
  - intros Ho Hr Harr. rewrite Hg, Ho, Hr, Harr. done.
Qed.

(** X10.  Without an error argument the completion handler never reports a
    failure, whatever the status code: a response with status 404 or 500 and a
    falsy [err] is formatted and handed to the callback as a result. *)
Theorem response_without_error_is_a_result fuel self h err req res data st :
  to_boolean err = false ->
  to_boolean res = false \/ nullish (get res "statusCode") = false ->
  is_failure err res = inr false /\
  cb fuel self h err req res data st = succeed fuel self h data st.
Proof.
  intros Herr Hres.
  assert (Hf : is_failure err res = inr false).
  { unfold is_failure, responseErrorCode. rewrite Herr.
    destruct Hres as [-> | Hsc]; [done|]. rewrite Hsc. by destruct (to_boolean res). }
  split; [done|]. unfold cb, bind. by rewrite Hf.
Qed.

(** X11.  A [RestError] always has the name [RestError], a truthy message and
    truthy metadata: a falsy message is replaced by the default message and
    falsy metadata by an empty object, anything else is kept. *)
Theorem RestError_is_never_empty message meta :
  exists m t,
    RestError message meta = RestErr "RestError" m t /\
    to_boolean m = true /\ to_boolean t = true /\
    m = (if to_boolean message then message else VStr "REST Error Message") /\
    t = (if to_boolean meta then meta else VObj []).
Proof.
  eexists _, _. split; [reflexivity|]. unfold js_or.
  destruct (to_boolean message) eqn:Hm, (to_boolean meta) eqn:Ht; done.
Qed.

(** X12.  Round trip through the cache: when the completion handler of a
    [find] receives a successful answer and a cache is configured, the
    formatted records are stored under the URI of the request and handed to
    the callback, and a later [find] with the same URI calls back with the
    same records without a call of the client. *)
Theorem successful_find_is_served_again fuel self cn k k2 options options2 d d2 c engine
        err req res data st :
  plan_request self cn "find" options VUndef = inr (Send d) ->
  r_collections self cn = Some c ->
  is_failure err res = inr false ->
  nullish data = false ->
  is_function (get (d_config d) "afterFormatResults") = false ->
  st_cache st = Some engine ->
  plan_request self cn "find" options2 VUndef = inr (Send d2) ->
  d_uri d2 = d_uri d ->
  exists rs st1,
    cb (S fuel) self (c_cb (http_of self cn "find" (CbUser k) d)) err req res data st
    = Ret tt st1 /\
    st_cache st1 = Some (<[d_uri d := VArr rs]> engine) /\
    st_trace st1 = (st_trace st ++ [EvCacheSet (d_uri d) (VArr rs); EvCallback k None (VArr rs)])%list /\
    find (S (S fuel)) self cn options2 (CbUser k2) st1
    = Ret (d_options d2) (record [EvCallback k2 None (VArr rs)] st1).
Proof.
  intros Hplan Hc Hok Hdata Hafter Hcache Hplan2 Huri.
  eexists _, _. split; [|split; [|split]].
  - unfold cb, bind. rewrite Hok. cbn [lift ret]. unfold succeed, bind. cbn [http_of c_cb h_methodName h_collection h_config h_uri h_callback].
    rewrite Hc. cbn [String.eqb Ascii.eqb Bool.eqb].
    unfold getResultsAsCollection. rewrite Hdata, formatResults_registered.
    rewrite (call_hook_absent _ "afterFormatResults") by done.
    cbn [lift ret]. unfold cache_set. rewrite Hcache. cbn [invoke emit st_trace st_cache].
    reflexivity.
  - reflexivity.
  - cbn [st_trace]. by rewrite <- app_assoc.
  - unfold find. rewrite (request_send _ _ _ _ _ _ _ d2) by done.
    cbn [String.eqb Ascii.eqb Bool.eqb]. unfold cached. cbn [st_cache].
    by rewrite Huri, lookup_insert_eq.
Qed.

(** X13.  A bulk [update] or [destroy] whose own verb is valid but whose
    enumerating [find] is mapped to a verb the client does not have: the
    callback of the bulk call receives the plain error of the [find], once,
    and no call is made. *)
Theorem bulk_call_reports_an_invalid_find fuel self cn mn k options values st :
  mn = "update" \/ mn = "destroy" ->
  well_configured self cn mn options ->
  to_boolean (get options "where") = true ->
  to_boolean (get (get options "where") "id") = false ->
  client_has (r_client self) (get (get (r_config self) "methods") "find") = false ->
  request (S (S (S (S fuel)))) self cn mn (CbUser k) options values st
  = Ret options
        (record [EvCallback k
                   (Some (JsError ("Invalid REST method: "
                                   ++ to_string (get (get (r_config self) "methods") "find"))))
                   VUndef] st).
Proof.
  intros Hmn Hwell Hw Hid Hfind. cbn [request]. rewrite plan_enumerates by done.
  destruct Hwell as (Hcfg & Hmethods & _).
  cbn [request]. unfold plan_request at 1. rewrite Hcfg, Hmethods, Hfind. reflexivity.
Qed.

(** X14.  A bulk [update] or [destroy] whose enumerating [find] is served
    from the cache makes no [get]: before [request] returns, one request per
    cached record has been handed to the client, in the order of the
    records, each the request of the pipeline for a selector that holds the
    id of its record alone, to the pathname of the resource followed by that
    id, the callback riding on the last one. *)
Theorem bulk_call_enumerated_from_the_cache fuel self cn mn k options values f d
        (rs : list value) st :
  mn = "update" \/ mn = "destroy" ->
  well_configured self cn mn options ->
  get (r_config self) "getPathname" = VFun f ->
  to_boolean (get options "where") = true ->
  to_boolean (get (get options "where") "id") = false ->
  plan_request self cn "find" options VUndef = inr (Send d) ->
  cached st (d_uri d) = VArr rs ->
  Forall (fun r => to_boolean (get r "id") = true) rs ->
  exists ds,
    Forall2 (fun r d' =>
               plan_request self cn mn (sub_options (get r "id")) values = inr (Send d') /\
               get (d_config d') "pathname"
               = VStr (to_string (apply_fn f [configured self cn (sub_options (get r "id"));
                                              get (get (r_config self) "methods") mn;
                                              values; sub_options (get r "id")])
                       ++ "/" ++ to_string (get r "id"))) rs ds /\
    request (S (S (S (S fuel)))) self cn mn (CbUser k) options values st
    = Ret (d_options d)
          (record (imap (fun i d' =>
                           EvHttp (http_of self cn mn
                                     (if bool_decide (S i = List.length rs)
                                      then CbUser k else CbNoop) d')) ds) st).
Proof.
  intros Hmn Hwell Hgp Hw Hid Hfind Hhit Hids.
  pose proof Hwell as (Hcfg & Hmethods & Hverb & _).
  destruct (fan_out_each fuel self cn mn (CbUser k) values f rs rs 0 st)
    as (ds & Hds & Heach); try done.
  exists ds. split; [exact Hds|].
  cbn [request]. rewrite plan_enumerates by done. rewrite Hfind.
  unfold bind at 1. cbn [String.eqb Ascii.eqb Bool.eqb]. unfold cache_get. rewrite Hhit.
  cbn [to_boolean]. unfold bind. rewrite invoke_fan_out. cbn [entries].
  assert (Heach' :
            each (per_record (request (S fuel) self cn mn) (CbUser k) values (VArr rs))
                 (imap (fun i x => (VNum (Z.of_nat i), x)) rs) st
            = Ret tt (record (imap (fun i d' =>
                                      EvHttp (http_of self cn mn
                                                (if bool_decide (S i = List.length rs)
                                                 then CbUser k else CbNoop) d')) ds) st))
    by exact Heach.
  by rewrite Heach'.
Qed.

(** X15.  When the enumerating [find] of a bulk call is answered
    successfully, its completion handler stores the formatted records in the
    cache under the URI of the [find] and then issues one request per record,
    in the order of the records, each the request of the pipeline for a
    selector that holds the id of its record alone, to the pathname of the
    resource followed by that id, the callback riding on the last one. *)
Theorem enumeration_answer_is_fanned_out fuel self cn mn k options values f d c
        err req res data (rs : list value) st :
  mn = "update" \/ mn = "destroy" ->
  nullish (r_config self) = false ->
  nullish (get (r_config self) "methods") = false ->
  client_has (r_client self) (get (get (r_config self) "methods") mn) = true ->
  get (r_config self) "getPathname" = VFun f ->
  plan_request self cn "find" options VUndef = inr (Send d) ->
  r_collections self cn = Some c ->
  is_failure err res = inr false ->
  getResultsAsCollection data (Some c) (d_config d) = inr (VArr rs) ->
  Forall (fun r => to_boolean (get r "id") = true) rs ->
  exists ds st1,
    Forall2 (fun r d' =>
               plan_request self cn mn (sub_options (get r "id")) values = inr (Send d') /\
               get (d_config d') "pathname"
               = VStr (to_string (apply_fn f [configured self cn (sub_options (get r "id"));
                                              get (get (r_config self) "methods") mn;
                                              values; sub_options (get r "id")])
                       ++ "/" ++ to_string (get r "id"))) rs ds /\
    cache_set (d_uri d) (VArr rs) st = Ret tt st1 /\
    cb (S (S (S fuel))) self
       (c_cb (http_of self cn "find" (CbFanOut cn mn (CbUser k) values) d))
       err req res data st
    = Ret tt (record (imap (fun i d' =>
                              EvHttp (http_of self cn mn
                                        (if bool_decide (S i = List.length rs)
                                         then CbUser k else CbNoop) d')) ds) st1).
Proof.
  intros Hmn Hcfg Hmethods Hverb Hgp Hfind Hc Hok Hres Hids.
  assert (Hst1 : exists st1, cache_set (d_uri d) (VArr rs) st = Ret tt st1).
  { unfold cache_set. destruct (st_cache st); by eexists. }
  destruct Hst1 as [st1 Hst1].
  destruct (fan_out_each (S fuel) self cn mn (CbUser k) values f rs rs 0 st1)
    as (ds & Hds & Heach); try done.
  exists ds, st1. split; [exact Hds|]. split; [done|].
  unfold cb, bind. rewrite Hok. cbn [lift ret]. unfold succeed, bind.
  cbn [http_of c_cb h_methodName h_collection h_config h_uri h_callback].
  rewrite Hc. cbn [String.eqb Ascii.eqb Bool.eqb]. rewrite Hres. cbn [lift ret].
  rewrite Hst1. rewrite invoke_fan_out. cbn [entries]. simpl in Heach. exact Heach.
Qed.

(** X16.  In a fanned-out call every request but the last carries the no-op
    callback, so a failure of any of them is dropped: its completion handler
    leaves the state as it is, and the caller is never told. *)
Theorem failures_of_earlier_records_are_dropped fuel self cn mn k values f (rs : list value) st :
  mn = "update" \/ mn = "destroy" ->
  nullish (r_config self) = false ->
  nullish (get (r_config self) "methods") = false ->
  client_has (r_client self) (get (get (r_config self) "methods") mn) = true ->
  get (r_config self) "getPathname" = VFun f ->
  Forall (fun r => to_boolean (get r "id") = true) rs ->
  exists ds,
    List.length ds = List.length rs /\
    invoke (S (S fuel)) self (CbFanOut cn mn (CbUser k) values) None (VArr rs) st
    = Ret tt (record (imap (fun i d =>
                              EvHttp (http_of self cn mn
                                        (if bool_decide (S i = List.length rs)
                                         then CbUser k else CbNoop) d)) ds) st) /\
    forall i d err req res data st1,
      ds !! i = Some d ->
      S i <> List.length rs ->
      is_failure err res = inr true ->
      cb (S fuel) self
         (c_cb (http_of self cn mn
                        (if bool_decide (S i = List.length rs) then CbUser k else CbNoop) d))
         err req res data st1
      = Ret tt st1.
Proof.
  intros Hmn Hcfg Hmethods Hverb Hgp Hids.
  destruct (fan_out_each fuel self cn mn (CbUser k) values f rs rs 0 st)
    as (ds & Hds & Heach); try done.
  exists ds. split; [|split].
  - symmetry. by eapply Forall2_length.
  - rewrite invoke_fan_out. exact Heach.
  - intros i d err req res data st1 _ Hlast Hfail.
    rewrite bool_decide_eq_false_2 by done.
    unfold cb, bind. rewrite Hfail. reflexivity.
Qed.

(** X17.  A bulk call by a falsy id whose enumeration is served from the
    cache with one record that has this same id never returns: the request
    for the record is the call itself, in the same state, so no amount of
    fuel gives a result (in JavaScript the call stack overflows). *)
Theorem cached_record_without_id_never_returns self cn mn values id d r st :
  plan_request self cn mn (sub_options id) values = inr Enumerate ->
  plan_request self cn "find" (sub_options id) VUndef = inr (Send d) ->
  cached st (d_uri d) = VArr [r] ->
  nullish r = false ->
  get r "id" = id ->
  forall fuel callback,
    request fuel self cn mn callback (sub_options id) values st = OutOfFuel.
Proof.
  intros Hplan Hfind Hhit Hr Hid fuel.
  induction fuel as [fuel IH] using lt_wf_ind. intros callback.
  destruct fuel as [|[|[|fuel]]]; cbn [request]; rewrite ?Hplan; try done;
    cbn [request]; rewrite Hfind; unfold bind, cache_get; cbn [String.eqb Ascii.eqb Bool.eqb];
    rewrite Hhit; cbn [to_boolean]; try done.
  cbn [invoke entries imap each]. unfold bind, per_record. cbn [fst snd].
  rewrite Hr, Hid. fold (sub_options id). unfold bind. by rewrite IH by lia.
Qed.

End Coverage.

(** * The pipeline on the widgets resource *)

Import Demo.

(** C1, counterexample: an update by id and colour.  The verb is [put], the
    selector that remains after the id is [{color: "red"}], the values are
    [{price: 5}]; the body handed to the client is the selector alone and has
    no [price]. *)
Lemma update_by_id_and_colour_loses_the_values :
  exists d,
    plan_request resource "widget" "update" (red_widget 7) (price 5) = inr (Send d) /\
    is_str (d_restMethod d) "get" = false /\
    stripped_selector (red_widget 7) = VObj [("color", VStr "red")] /\
    has (price 5) "price" = true /\
    c_body (http_of resource "widget" "update" (CbUser 0) d)
    = Some (VObj [("color", VStr "red")]) /\
    has (d_opt d) "price" = false.
Proof. eexists. split; [reflexivity|]. repeat split. Qed.

(** C1, witness of [remaining_selector_is_the_body]. *)
Lemma remaining_selector_is_the_body_witness :
  exists d,
    plan_request resource "widget" "update" (red_widget 7) (price 5) = inr (Send d) /\
    d_opt d = stripped_selector (red_widget 7) /\
    d_alias d = Some TheWhere /\
    c_body (http_of resource "widget" "update" (CbUser 0) d)
    = Some (stripped_selector (red_widget 7)).
Proof.
  eexists. split; [reflexivity|].
  apply (remaining_selector_is_the_body resource "widget" "update" (CbUser 0)
                                        (red_widget 7) (price 5));
    [reflexivity | reflexivity | reflexivity | simpl; lia].
Defined.

(** C2, counterexample: with [find] mapped to [fetch], a verb the client does
    not have, the callback receives [new Error("Invalid REST method: fetch")],
    which is not a [RestError]. *)
Lemma invalid_verb_error_is_a_plain_error :
  exists e o st',
    find 5 misconfigured "widget" VUndef (CbUser 0) fresh = Ret o st' /\
    st_trace st' = [EvCallback 0 (Some e) VUndef] /\
    e = JsError "Invalid REST method: fetch" /\
    is_rest_error e = false.
Proof. eexists _, _, _. split; [reflexivity|]. split; [reflexivity|]. split; reflexivity. Qed.

(** C2, witness of [invalid_verb_fails_without_request]. *)
Lemma invalid_verb_fails_without_request_witness :
  request 2 misconfigured "widget" "find" (CbUser 0) (widget 7) VUndef fresh
  = Ret (widget 7)
        (record [EvCallback 0 (Some (JsError "Invalid REST method: fetch")) VUndef] fresh).
Proof.
  apply (invalid_verb_fails_without_request 0 misconfigured "widget" "find" 0
                                            (widget 7) VUndef fresh);
    reflexivity.
Defined.

(** C3, at the failing input: a [find] with [limit: 10] and no selector.
    The verb is [get] and [limit] is defined in the options, yet the request
    handed to the client is [GET /widgets]: its query parameters have no
    [limit], because the copy of the three keys sits inside the test of the
    selector.  With an empty selector, which is truthy, the same call is
    [GET /widgets?limit=10]. *)
Lemma limit_without_selector_is_dropped :
  (exists d c st',
      plan_request resource "widget" "find" (VObj [("limit", VNum 10)]) VUndef = inr (Send d) /\
      is_str (d_restMethod d) "get" = true /\
      get (VObj [("limit", VNum 10)]) "limit" = VNum 10 /\
      has (get (d_config d) "query") "limit" = false /\
      find 2 resource "widget" (VObj [("limit", VNum 10)]) (CbUser 0) fresh
      = Ret (VObj [("limit", VNum 10)]) st' /\
      st_trace st' = [EvHttp c] /\
      c_verb c = VStr "get" /\
      c_path c = "/widgets") /\
  (exists c o st',
      find 2 resource "widget" (VObj [("where", VObj []); ("limit", VNum 10)]) (CbUser 0) fresh
      = Ret o st' /\
      st_trace st' = [EvHttp c] /\
      c_verb c = VStr "get" /\
      c_path c = "/widgets?limit=10").
Proof.
  split.
  - eexists _, _, _. split; [reflexivity|]. repeat split.
  - eexists _, _, _. split; [reflexivity|]. repeat split.
Qed.

(** Witness of [pagination_follows_the_verb]. *)
Lemma pagination_follows_the_verb_witness :
  exists d,
    plan_request resource "widget" "find"
                 (VObj [("where", VObj [("color", VStr "red")]); ("limit", VNum 10)]) VUndef
    = inr (Send d) /\
    get (get (d_config d) "query") "limit" = VNum 10 /\
    d_path d = "/widgets?color=red&limit=10".
Proof.
  eexists. split; [reflexivity|]. split; [|reflexivity].
  apply (pagination_follows_the_verb resource "widget" "find"
           (VObj [("where", VObj [("color", VStr "red")]); ("limit", VNum 10)]) VUndef);
    [reflexivity | reflexivity | reflexivity | reflexivity | right; by left | discriminate].
Defined.

(** C4, counterexample: a bulk update of the red widgets.  The only call is
    the enumerating [get].  When it is answered with no record the state is
    left as it is: the callback has not been called and no call that carries
    it is pending.  When it fails, the callback is called with the error and
    no request is made for any record. *)
Lemma bulk_update_may_never_call_back :
  exists c o st1,
    update 6 resource "widget" red_widgets (price 5) (CbUser 0) fresh = Ret o st1 /\
    st_trace st1 = [EvHttp c] /\
    c_verb c = VStr "get" /\
    cb 6 resource (c_cb c) VNull VNull ok (VArr []) st1 = Ret tt st1 /\
    fired 0 (st_trace st1) = 0%nat /\
    cb 6 resource (c_cb c) timeout VNull not_found VNull st1
    = Ret tt (record [EvCallback 0 (Some (RestError (VStr "socket hang up")
                                                    (meta_of VNull not_found VNull)))
                                 VUndef] st1).
Proof.
  eexists _, _, _. split; [reflexivity|]. split; [reflexivity|]. repeat split.
Qed.

(** C4, witness of [bulk_call_is_fanned_out]: two red widgets, 1 and 2. *)
Lemma bulk_call_is_fanned_out_witness :
  request 4 resource "widget" "update" (CbUser 0) red_widgets (price 5) fresh
  = find 3 resource "widget" red_widgets (CbFanOut "widget" "update" (CbUser 0) (price 5)) fresh.
Proof.
  apply (bulk_call_is_fanned_out 3 resource "widget" "update" 0 red_widgets (price 5)
                                 FnGetPathname [VObj [("id", VNum 1)]; VObj [("id", VNum 2)]]
                                 fresh);
    [by left | by repeat split | reflexivity | reflexivity | reflexivity | discriminate
    | by repeat constructor].
Defined.

(** C5, counterexample: without [getPathname] in the configuration [find]
    throws, and the completion handler throws on a response that has no
    status code. *)
Lemma request_without_getPathname_throws :
  find 5 pathless "widget" VUndef (CbUser 0) fresh
  = Throw (TypeError "config.getPathname is not a function") fresh /\
  cb 5 resource on_found VNull VNull (VObj []) VNull fresh
  = Throw (TypeError "res.statusCode is undefined") fresh.
Proof. split; reflexivity. Qed.

(** C5, witness of [failures_are_called_back_or_thrown]. *)
Lemma failures_are_called_back_or_thrown_witness :
  request 1 pathless "widget" "find" (CbUser 0) (widget 7) VUndef fresh
  = Throw (TypeError "config.getPathname is not a function") fresh.
Proof.
  apply (failures_are_called_back_or_thrown 0 pathless "widget" "find" 0 (widget 7) VUndef fresh);
    reflexivity.
Defined.

(** C6, witness of [completion_classifies_failure]: a transport error with a
    404 is a failure. *)
Lemma completion_classifies_failure_witness :
  is_failure timeout not_found = inr true.
Proof.
  apply (completion_classifies_failure 0 resource on_found 0 timeout VNull not_found VNull 404
                                       fresh);
    [reflexivity | right; split; [reflexivity | lia]].
Defined.

(** C7, witness of [find_served_from_cache]. *)
Lemma find_served_from_cache_witness :
  exists o,
    find 2 resource "widget" (widget 7) (CbUser 0)
         (with_cache {[ "http://localhost:8080/widgets/7" := VArr [VObj [("id", VNum 7)]] ]})
    = Ret o (record [EvCallback 0 None (VArr [VObj [("id", VNum 7)]])]
                    (with_cache {[ "http://localhost:8080/widgets/7"
                                   := VArr [VObj [("id", VNum 7)]] ]})).
Proof.
  eexists.
  eapply (find_served_from_cache 0 resource "widget" 0 (widget 7));
    [reflexivity | reflexivity | vm_compute; reflexivity].
Defined.

(** C8, witness of [mutation_invalidates_own_uri]. *)
Lemma mutation_invalidates_own_uri_witness :
  exists d,
    plan_request resource "widget" "update" (widget 7) (price 5) = inr (Send d) /\
    cb 1 resource (c_cb (http_of resource "widget" "update" (CbUser 0) d))
             VNull VNull ok (VObj [("id", VNum 7)])
             (with_cache {[ "http://localhost:8080/widgets/7" := VArr [] ]})
    = Ret tt {| st_cache := Some (delete (d_uri d)
                                         {[ "http://localhost:8080/widgets/7" := VArr [] ]});
                st_trace := [EvCacheDel (d_uri d);
                             EvCallback 0 None (VObj [("id", VNum 7)])] |}.
Proof.
  eexists. split; [reflexivity|].
  refine (proj1 (proj2 (mutation_invalidates_own_uri
                          0 resource "widget" "update" 0 (widget 7) (price 5) _ widgets
                          {[ "http://localhost:8080/widgets/7" := VArr [] ]}
                          VNull VNull ok (VObj [("id", VNum 7)]) fresh
                          (with_cache {[ "http://localhost:8080/widgets/7" := VArr [] ]})
                          _ _ _ _ _)));
    [right; by left | reflexivity | reflexivity | reflexivity | reflexivity].
Defined.

(** C9, at the failing input: a [find] by the id 0.  The selector contains
    an id, yet the id is not appended to the pathname: the request handed to
    the client is [GET /widgets?id=0], the id is a query parameter and stays
    in the selector of the caller.  An update by the same selector is not
    sent as [PUT /widgets/0] either: it is fanned out like a bulk update,
    its only call being the enumerating [get]. *)
Lemma id_zero_is_sent_as_a_query_parameter :
  (exists d c st',
      plan_request resource "widget" "find" (widget 0) VUndef = inr (Send d) /\
      has (get (widget 0) "where") "id" = true /\
      get (d_config d) "pathname" = VStr "/widgets" /\
      get (get (d_config d) "query") "id" = VNum 0 /\
      d_options d = widget 0 /\
      find 2 resource "widget" (widget 0) (CbUser 0) fresh = Ret (widget 0) st' /\
      st_trace st' = [EvHttp c] /\
      c_verb c = VStr "get" /\
      c_path c = "/widgets?id=0") /\
  plan_request resource "widget" "update" (widget 0) (price 5) = inr Enumerate /\
  (exists c o st',
      update 4 resource "widget" (widget 0) (price 5) (CbUser 0) fresh = Ret o st' /\
      st_trace st' = [EvHttp c] /\
      c_verb c = VStr "get" /\
      c_path c = "/widgets?id=0").
Proof.
  split; [|split; [reflexivity|]].
  - eexists _, _, _. split; [reflexivity|]. repeat split.
  - eexists _, _, _. split; [reflexivity|]. repeat split.
Qed.

(** Witness of [truthy_id_is_a_path_segment]. *)
Lemma truthy_id_is_a_path_segment_witness :
  exists d,
    plan_request resource "widget" "find" (widget 7) VUndef = inr (Send d) /\
    get (d_config d) "pathname" = VStr "/widgets/7" /\
    has (get (d_config d) "query") "id" = false.
Proof.
  eexists. split; [reflexivity|].
  destruct (truthy_id_is_a_path_segment resource "widget" "find" (widget 7) VUndef _
                                        eq_refl eq_refl)
    as ((f & Hf & Hpath) & _ & Hquery & _).
  split; [|exact Hquery].
  injection Hf as <-. exact Hpath.
Defined.

(** C10, counterexample: a call rejected for its verb returns with the id
    still in the selector of the caller, and a [get] by id leaves the emptied
    selector in the options. *)
Lemma rejected_call_leaves_the_id :
  (exists st', find 5 misconfigured "widget" (widget 7) (CbUser 0) fresh = Ret (widget 7) st') /\
  has (get (widget 7) "where") "id" = true /\
  (exists st',
      find 5 resource "widget" (widget 7) (CbUser 0) fresh = Ret (VObj [("where", VObj [])]) st').
Proof. split; [by eexists|]. split; [reflexivity|by eexists]. Qed.

(** C10, witness of [request_edits_the_callers_options]. *)
Lemma request_edits_the_callers_options_witness :
  exists d,
    plan_request resource "widget" "update" (widget 7) (price 5) = inr (Send d) /\
    d_options d = VObj [("price", VNum 5)] /\
    d_opt d = d_options d /\
    d_alias d = Some TheOptions.
Proof.
  eexists. split; [reflexivity|].
  eapply (request_edits_the_callers_options 0 resource "widget" "update" 0 (widget 7) (price 5)
                                            _ fresh);
    [reflexivity | reflexivity | reflexivity | reflexivity | by right].
Defined.

(** ** The further properties on the widgets resource *)

(** Witness of [pathname_of_a_sent_call]: the widget 7, and a widget whose
    id is 10^21, which is printed with an exponent. *)
Lemma pathname_of_a_sent_call_witness :
  (exists d,
      plan_request resource "widget" "find" (widget 7) VUndef = inr (Send d) /\
      get (d_config d) "pathname" = VStr "/widgets/7") /\
  (exists d,
      plan_request resource "widget" "find" (widget 1000000000000000000000) VUndef
      = inr (Send d) /\
      get (d_config d) "pathname" = VStr "/widgets/1e+21").
Proof.
  split.
  - eexists. split; [reflexivity|].
    exact (pathname_of_a_sent_call resource "widget" "find" (widget 7) VUndef _ eq_refl eq_refl).
  - eexists. split; [reflexivity|].
    exact (pathname_of_a_sent_call resource "widget" "find" (widget 1000000000000000000000)
                                   VUndef _ eq_refl eq_refl).
Defined.

(** Witness of [options_override_configured_keys_only]: [pathname] is a key
    of the configuration and is overridden, [color] is not and is not added. *)
Lemma options_override_configured_keys_only_witness :
  get (override_config config (VObj [("pathname", VStr "/api"); ("color", VStr "red")]))
      "pathname"
  = VStr "/api" /\
  has (override_config config (VObj [("pathname", VStr "/api"); ("color", VStr "red")])) "color"
  = false.
Proof.
  destruct (options_override_configured_keys_only
              config (VObj [("pathname", VStr "/api"); ("color", VStr "red")]))
    as (_ & Hhas & Hget & _).
  split; [exact (Hget "pathname" eq_refl eq_refl) | exact (Hhas "color")].
Defined.


(** Witness of [selector_becomes_the_query]. *)
Lemma selector_becomes_the_query_witness :
  exists d,
    plan_request resource "widget" "find"
                 (VObj [("where", VObj [("color", VStr "red")]); ("limit", VNum 10)]) VUndef
    = inr (Send d) /\
    get (get (d_config d) "query") "color" = VStr "red".
Proof.
  eexists. split; [reflexivity|].
  apply (selector_becomes_the_query
           resource "widget" "find"
           (VObj [("where", VObj [("color", VStr "red")]); ("limit", VNum 10)]) VUndef _
           [("color", VStr "red")] []);
    [reflexivity | reflexivity | reflexivity
    | apply NoDup_singleton
    | reflexivity | right; reflexivity].
Defined.

(** Witness of [get_never_sends_the_selector]. *)
Lemma get_never_sends_the_selector_witness :
  exists d,
    plan_request resource "widget" "find" red_widgets VUndef = inr (Send d) /\
    d_alias d <> Some TheWhere /\
    c_body (http_of resource "widget" "find" (CbUser 0) d) = None.
Proof.
  eexists. split; [reflexivity|].
  destruct (get_never_sends_the_selector resource "widget" "find" red_widgets VUndef _
                                         eq_refl eq_refl)
    as (Halias & Hbody).
  split; [exact Halias | exact (proj2 (Hbody eq_refl) (CbUser 0))].
Defined.

(** Witness of [path_is_relative_to_the_client]. *)
Lemma path_is_relative_to_the_client_witness :
  exists d c,
    plan_request resource "widget" "find" (widget 7) VUndef = inr (Send d) /\
    request 2 resource "widget" "find" (CbUser 0) (widget 7) VUndef fresh
    = Ret (d_options d) (record [EvHttp c] fresh) /\
    c_path c = "/" ++ "widgets/7".
Proof.
  eexists.
  epose proof (path_is_relative_to_the_client 0 resource "widget" "find" 0 (widget 7) VUndef _
                                              fresh eq_refl eq_refl)
    as (c & Hreq & _ & Hpath & _).
  exists c. split; [reflexivity|]. split; [exact Hreq|]. apply Hpath. reflexivity.
Defined.

(** Witness of [create_sends_the_values]. *)
Lemma create_sends_the_values_witness :
  exists d,
    create 1 resource "widget" (price 5) (CbUser 0) fresh
    = Ret VNull (record [EvHttp (http_of resource "widget" "create" (CbUser 0) d)] fresh) /\
    c_body (http_of resource "widget" "create" (CbUser 0) d) = Some (price 5).
Proof.
  destruct (create_sends_the_values 0 resource "widget" 0 (price 5) FnGetPathname fresh
                                    eq_refl eq_refl eq_refl eq_refl)
    as (d & Hcreate & Hbody & _).
  exists d. split; [exact Hcreate | exact Hbody].
Defined.

(** Witness of [request_only_reads_the_cache]. *)
Lemma request_only_reads_the_cache_witness :
  exists o st',
    request 2 resource "widget" "find" (CbUser 0) (widget 7) VUndef fresh = Ret o st' /\
    st_cache st' = st_cache fresh /\
    exists es : list event,
      st_trace st' = (st_trace fresh ++ es)%list /\
      forallb (fun e => negb (is_cache_event e)) es = true.
Proof.
  eexists _, _. split; [reflexivity|].
  eapply (request_only_reads_the_cache 2 resource "widget" "find" (CbUser 0) (widget 7) VUndef
                                       fresh).
  reflexivity.
Defined.

(** Witness of [results_are_read_from_the_body]. *)
Lemma results_are_read_from_the_body_witness :
  getResultsAsCollection (VObj [("objects", VArr [VObj [("id", VNum 1)]])]) (Some widgets) config
  = inr (VArr [VObj [("id", VNum 1)]]).
Proof.
  exact (proj1 (results_are_read_from_the_body
                  (VObj [("objects", VArr [VObj [("id", VNum 1)]])]) widgets config
                  eq_refl eq_refl eq_refl)
               [VObj [("id", VNum 1)]] eq_refl).
Defined.

(** Witness of [response_without_error_is_a_result]: a 404 without an error
    argument is not a failure. *)
Lemma response_without_error_is_a_result_witness :
  is_failure VNull not_found = inr false.
Proof.
  apply (proj1 (response_without_error_is_a_result 1 resource on_found VNull VNull not_found
                                                   VNull fresh eq_refl
                                                   (or_intror eq_refl))).
Defined.

(** Witness of [successful_find_is_served_again]. *)
Lemma successful_find_is_served_again_witness :
  exists d rs st1,
    plan_request resource "widget" "find" (widget 7) VUndef = inr (Send d) /\
    cb 1 resource (c_cb (http_of resource "widget" "find" (CbUser 0) d))
       VNull VNull ok (VObj [("id", VNum 7)]) (with_cache ∅)
    = Ret tt st1 /\
    find 2 resource "widget" (widget 7) (CbUser 1) st1
    = Ret (d_options d) (record [EvCallback 1 None (VArr rs)] st1).
Proof.
  eexists.
  destruct (successful_find_is_served_again
              0 resource "widget" 0 1 (widget 7) (widget 7) _ _ widgets ∅
              VNull VNull ok (VObj [("id", VNum 7)]) (with_cache ∅)
              eq_refl eq_refl eq_refl eq_refl eq_refl eq_refl eq_refl eq_refl)
    as (rs & st1 & Hcb & _ & _ & Hfind).
  exists rs, st1. split; [reflexivity|]. split; [exact Hcb | exact Hfind].
Defined.

(** Witness of [bulk_call_reports_an_invalid_find]. *)
Lemma bulk_call_reports_an_invalid_find_witness :
  request 4 misconfigured "widget" "update" (CbUser 0) red_widgets (price 5) fresh
  = Ret red_widgets
        (record [EvCallback 0 (Some (JsError "Invalid REST method: fetch")) VUndef] fresh).
Proof.
  apply (bulk_call_reports_an_invalid_find 0 misconfigured "widget" "update" 0 red_widgets
                                           (price 5) fresh);
    [by left | by repeat split | reflexivity | reflexivity | reflexivity].
Defined.

(** Witness of [bulk_call_enumerated_from_the_cache]: the red widgets 1 and 2
    are in the cache. *)
Lemma bulk_call_enumerated_from_the_cache_witness :
  exists d,
    plan_request resource "widget" "find" red_widgets VUndef = inr (Send d) /\
    exists ds,
      Forall2 (fun r d' =>
                 plan_request resource "widget" "update" (sub_options (get r "id")) (price 5)
                 = inr (Send d') /\
                 get (d_config d') "pathname"
                 = VStr (to_string (apply_fn FnGetPathname
                                      [configured resource "widget" (sub_options (get r "id"));
                                       get (get (r_config resource) "methods") "update";
                                       price 5; sub_options (get r "id")])
                         ++ "/" ++ to_string (get r "id")))
              [VObj [("id", VNum 1)]; VObj [("id", VNum 2)]] ds /\
      request 4 resource "widget" "update" (CbUser 0) red_widgets (price 5)
              (with_cache {[ "http://localhost:8080/widgets?color=red"
                             := VArr [VObj [("id", VNum 1)]; VObj [("id", VNum 2)]] ]})
      = Ret (d_options d)
            (record (imap (fun i d' =>
                             EvHttp (http_of resource "widget" "update"
                                       (if bool_decide (S i = 2%nat) then CbUser 0 else CbNoop)
                                       d')) ds)
                    (with_cache {[ "http://localhost:8080/widgets?color=red"
                                   := VArr [VObj [("id", VNum 1)]; VObj [("id", VNum 2)]] ]})).
Proof.
  eexists. split; [reflexivity|].
  eapply (bulk_call_enumerated_from_the_cache
            0 resource "widget" "update" 0 red_widgets (price 5) FnGetPathname _
            [VObj [("id", VNum 1)]; VObj [("id", VNum 2)]]
            (with_cache {[ "http://localhost:8080/widgets?color=red"
                           := VArr [VObj [("id", VNum 1)]; VObj [("id", VNum 2)]] ]}));
    [by left | by repeat split | reflexivity | reflexivity | reflexivity | reflexivity
    | vm_compute; reflexivity | by repeat constructor].
Defined.

(** Witness of [enumeration_answer_is_fanned_out]. *)
Lemma enumeration_answer_is_fanned_out_witness :
  exists d,
    plan_request resource "widget" "find" red_widgets VUndef = inr (Send d) /\
    exists ds st1,
      Forall2 (fun r d' =>
                 plan_request resource "widget" "update" (sub_options (get r "id")) (price 5)
                 = inr (Send d') /\
                 get (d_config d') "pathname"
                 = VStr (to_string (apply_fn FnGetPathname
                                      [configured resource "widget" (sub_options (get r "id"));
                                       get (get (r_config resource) "methods") "update";
                                       price 5; sub_options (get r "id")])
                         ++ "/" ++ to_string (get r "id")))
              [VObj [("id", VNum 1)]; VObj [("id", VNum 2)]] ds /\
      cache_set (d_uri d) (VArr [VObj [("id", VNum 1)]; VObj [("id", VNum 2)]]) fresh
      = Ret tt st1 /\
      cb 3 resource
         (c_cb (http_of resource "widget" "find"
                        (CbFanOut "widget" "update" (CbUser 0) (price 5)) d))
         VNull VNull ok (VArr [VObj [("id", VNum 1)]; VObj [("id", VNum 2)]]) fresh
      = Ret tt (record (imap (fun i d' =>
                                EvHttp (http_of resource "widget" "update"
                                          (if bool_decide (S i = 2%nat) then CbUser 0 else CbNoop)
                                          d')) ds) st1).
Proof.
  eexists. split; [reflexivity|].
  eapply (enumeration_answer_is_fanned_out
            0 resource "widget" "update" 0 red_widgets (price 5) FnGetPathname _ widgets
            VNull VNull ok (VArr [VObj [("id", VNum 1)]; VObj [("id", VNum 2)]])
            [VObj [("id", VNum 1)]; VObj [("id", VNum 2)]] fresh);
    [by left | reflexivity | reflexivity | reflexivity | reflexivity | reflexivity
    | reflexivity | reflexivity | reflexivity | by repeat constructor].
Defined.

(** Witness of [failures_of_earlier_records_are_dropped]: the request for
    the first of two records fails. *)
Lemma failures_of_earlier_records_are_dropped_witness :
  exists ds,
    List.length ds = 2%nat /\
    forall d, ds !! 0%nat = Some d ->
      cb 1 resource (c_cb (http_of resource "widget" "update" CbNoop d))
         timeout VNull not_found VNull fresh
      = Ret tt fresh.
Proof.
  destruct (failures_of_earlier_records_are_dropped
              0 resource "widget" "update" 0 (price 5) FnGetPathname
              [VObj [("id", VNum 1)]; VObj [("id", VNum 2)]] fresh)
    as (ds & Hlen & _ & Hdrop);
    [by left | reflexivity | reflexivity | reflexivity | reflexivity | by repeat constructor |].
  exists ds. split; [exact Hlen|].
  intros d Hd. apply (Hdrop 0%nat d timeout VNull not_found VNull fresh Hd); [by simpl|reflexivity].
Defined.

(** Witness of [cached_record_without_id_never_returns]: an update of the
    widget 0 while the cache holds the answer to the [find] of that widget. *)
Lemma cached_record_without_id_never_returns_witness :
  request 100 resource "widget" "update" (CbUser 0) (sub_options (VNum 0)) (price 5)
          (with_cache {[ "http://localhost:8080/widgets?id=0" := VArr [VObj [("id", VNum 0)]] ]})
  = OutOfFuel.
Proof.
  eapply (cached_record_without_id_never_returns
            resource "widget" "update" (price 5) (VNum 0) _ (VObj [("id", VNum 0)])
            (with_cache {[ "http://localhost:8080/widgets?id=0"
                           := VArr [VObj [("id", VNum 0)]] ]}));
    [reflexivity | reflexivity | vm_compute; reflexivity | reflexivity | reflexivity].
Defined.
